(** * A shallow embedding of [main.py], the Streamlit data-analysis assistant

    The script is a thin orchestration layer over third-party libraries
    (requests, BeautifulSoup, pandas, PyPDF2, matplotlib, streamlit) and one
    external agent.  The embedding keeps the script's own control flow exact
    and takes every library entry point as a field of the record [Lib]:
    theorems quantify over all library behaviours, and a single reference
    instance is used to evaluate the script on concrete inputs.

    Python computations are modelled in a small monad [Py] that threads a
    [World] (the Streamlit session state and the log of externally visible
    effects) and may raise an exception. *)

From stdpp Require Import gmap strings list pretty.

Set Warnings "-register-all".

(** ** Python strings

    A Python [str] is a sequence of Unicode code points; slicing and [len]
    count code points, not bytes.  String literals of the source are written
    as UTF-8 in this file and decoded by [py]. *)

Abbreviation pystr := (list N).

Definition byte_of_ascii (a : Ascii.ascii) : N := Ascii.N_of_ascii a.

Fixpoint string_bytes (s : string) : list N :=
  match s with
  | EmptyString => []
  | String a s' => byte_of_ascii a :: string_bytes s'
  end.

(** Decoder for well-formed UTF-8 (1 to 4 byte sequences); a stray byte is
    kept as it is.  Only used on the literals of this file. *)
Fixpoint utf8_decode (fuel : nat) (bs : list N) : pystr :=
  match fuel with
  | O => []
  | S fuel' =>
    match bs with
    | [] => []
    | b0 :: r0 =>
      if (b0 <? 128)%N then b0 :: utf8_decode fuel' r0
      else if (b0 <? 224)%N then
        match r0 with
        | b1 :: r1 =>
            ((b0 - 192) * 64 + (b1 - 128))%N :: utf8_decode fuel' r1
        | _ => b0 :: utf8_decode fuel' r0
        end
      else if (b0 <? 240)%N then
        match r0 with
        | b1 :: b2 :: r2 =>
            ((b0 - 224) * 4096 + (b1 - 128) * 64 + (b2 - 128))%N
              :: utf8_decode fuel' r2
        | _ => b0 :: utf8_decode fuel' r0
        end
      else
        match r0 with
        | b1 :: b2 :: b3 :: r3 =>
            ((b0 - 240) * 262144 + (b1 - 128) * 4096
             + (b2 - 128) * 64 + (b3 - 128))%N :: utf8_decode fuel' r3
        | _ => b0 :: utf8_decode fuel' r0
        end
    end
  end.

Definition py (s : string) : pystr :=
  let bs := string_bytes s in utf8_decode (length bs) bs.

(** The empty string. *)
Definition empty_str : pystr := [].

(** [str.isspace] on one code point (the characters [str.split()] and
    [str.strip()] treat as whitespace). *)
Definition py_isspace (c : N) : bool :=
  ((9 <=? c) && (c <=? 13) || (28 <=? c) && (c <=? 32)
   || (c =? 133) || (c =? 160) || (c =? 5760)
   || (8192 <=? c) && (c <=? 8202)
   || (c =? 8232) || (c =? 8233) || (c =? 8239) || (c =? 8287)
   || (c =? 12288))%N.

(** [s.split()]: maximal runs of non-whitespace, in order. *)
Fixpoint split_go (cur : pystr) (s : pystr) : list pystr :=
  match s with
  | [] => if cur is [] then [] else [cur]
  | c :: s' =>
      if py_isspace c
      then (if cur is [] then [] else [cur]) ++ split_go [] s'
      else split_go (cur ++ [c]) s'
  end.

Definition py_split (s : pystr) : list pystr := split_go [] s.

(** [s.strip()] *)
Fixpoint py_lstrip (s : pystr) : pystr :=
  match s with
  | c :: s' => if py_isspace c then py_lstrip s' else s
  | [] => []
  end.

Definition py_strip (s : pystr) : pystr :=
  reverse (py_lstrip (reverse (py_lstrip s))).

(** [needle in hay] on strings: contiguous, case-sensitive occurrence. *)
Fixpoint py_startswith (p s : pystr) : bool :=
  match p, s with
  | [], _ => true
  | a :: p', b :: s' => (a =? b)%N && py_startswith p' s'
  | _ :: _, [] => false
  end.

Fixpoint py_in_str (needle hay : pystr) : bool :=
  py_startswith needle hay ||
  match hay with
  | [] => false
  | _ :: hay' => py_in_str needle hay'
  end.

(** [str(i)] for a non-negative integer. *)
Definition py_str_nat (i : nat) : pystr := py (pretty i).

(** ** Python values, exceptions and frames *)

(** A pandas [DataFrame]: column labels and rows aligned with them.  The
    cells are opaque to the script. *)
Record DataFrame := mkFrame {
  df_columns : list pystr;
  df_rows : list (list Z)
}.

(** The values that flow through the dictionaries of the script; the keys
    of a dictionary are strings. *)
Inductive pyval :=
| VNone
| VNum (z : Z)
| VStr (s : pystr)
| VList (l : list pyval)
| VDict (d : gmap pystr pyval).

(** A dictionary built from its items in order: a later item replaces an
    earlier one with the same key. *)
Definition dict (items : list (pystr * pyval)) : gmap pystr pyval :=
  foldl (fun d kv => <[kv.1 := kv.2]> d) ∅ items.

(** An instance of (a subclass of) [Exception]; [exn_str] is [str(e)]. *)
Record Exn := mkExn { exn_class : string; exn_str : pystr }.

(** [df.head(n)] *)
Definition df_head (n : nat) (f : DataFrame) : DataFrame :=
  mkFrame (df_columns f) (take n (df_rows f)).

(** [df.to_dict('records')]: one dictionary per row, keyed by column.  A
    dictionary is a finite map here, so the order in which Python keeps the
    keys of a row is not represented. *)
Definition to_dict_records (f : DataFrame) : pyval :=
  VList (map (fun row => VDict (dict (zip (df_columns f) (VNum <$> row))))
             (df_rows f)).

(** [list(df.columns)] *)

Definition columns_list (f : DataFrame) : pyval :=
  VList (map VStr (df_columns f)).

(** An uploaded file: its name and bytes. *)
Record UploadedFile := mkFile { file_name : pystr; file_bytes : list N }.

(** Truthiness of the objects the script tests with [not] / [if]. *)
Definition truthy_str (s : pystr) : bool := if s is [] then false else true.

Definition truthy (v : pyval) : bool :=
  match v with
  | VNone => false
  | VNum z => negb (z =? 0)%Z
  | VStr s => truthy_str s
  | VList l => if l is [] then false else true
  | VDict d => negb (bool_decide (dom d = ∅))
  end.

(** [v is None] *)
Definition is_None (v : pyval) : bool :=
  match v with
  | VNone => true
  | _ => false
  end.

(** ** Results of fallible calls *)

Definition Res (A : Type) : Type := Exn + A.

Definition ok {A} (a : A) : Res A := inr a.
Definition err {A} (e : Exn) : Res A := inl e.

#[global] Instance Res_ret : MRet Res := fun A a => inr a.
#[global] Instance Res_bind : MBind Res := fun A B f m =>
  match m with
  | inl e => inl e
  | inr a => f a
  end.

Definition raised {A} (r : Res A) : Prop := exists e, r = inl e.

(** [v[k]] for a string key: a dictionary looks the key up ([KeyError] when
    absent); no other value of [pyval] accepts a string subscript. *)
Definition KeyError (k : pystr) : Exn :=
  mkExn "KeyError" (py "'" ++ k ++ py "'").

Definition TypeError (msg : string) : Exn := mkExn "TypeError" (py msg).

Definition IndexError (msg : string) : Exn := mkExn "IndexError" (py msg).

Definition py_getitem (v : pyval) (k : pystr) : Res pyval :=
  match v with
  | VDict d =>
      match d !! k with
      | Some x => ok x
      | None => err (KeyError k)
      end
  | VStr _ => err (TypeError "string indices must be integers, not 'str'")
  | VList _ => err (TypeError "list indices must be integers or slices, not str")
  | VNone => err (TypeError "'NoneType' object is not subscriptable")
  | VNum _ => err (TypeError "'int' object is not subscriptable")
  end.

(** [l[0]] *)
Definition py_index0 {A} (l : list A) : Res A :=
  match l with
  | x :: _ => ok x
  | [] => err (IndexError "list index out of range")
  end.

(** [d.get(k, default)] on a dictionary. *)
Definition dict_get (d : gmap pystr pyval) (k : pystr) (dflt : pyval) : pyval :=
  default dflt (d !! k).

(** ** The world: session state and visible effects *)

Inductive InputMethod := UploadFile | InputURL.
Inductive FileType := Excel | CSV | Word | HTML | PDF.

(** [st.session_state]: the four keys initialised at lines 22-29. *)
Record Session := mkSession {
  df : option DataFrame;            (* None or a DataFrame *)
  text_content : pyval;             (* None or the extracted text *)
  uploaded_file : option UploadedFile;
  input_url : option pystr
}.

Definition initial_session : Session := mkSession None VNone None None.

Definition set_df (f : DataFrame) (s : Session) : Session :=
  mkSession (Some f) (text_content s) (uploaded_file s) (input_url s).

Definition set_text_content (t : pyval) (s : Session) : Session :=
  mkSession (df s) t (uploaded_file s) (input_url s).

Definition set_uploaded_file (u : option UploadedFile) (s : Session) : Session :=
  mkSession (df s) (text_content s) u (input_url s).

Definition set_input_url (u : option pystr) (s : Session) : Session :=
  mkSession (df s) (text_content s) (uploaded_file s) u.

Inductive ChartKind := BarChart | LineChart.

(** What [create_chart] has put on the figure when it is handed to
    [st.pyplot]. *)
Record Figure := mkFigure {
  fig_kind : ChartKind;
  fig_x : pyval;
  fig_y : pyval;
  fig_annotations : list pyval;
  fig_title : pyval;
  fig_xlabel : pyval;
  fig_ylabel : pyval
}.

Inductive Style :=
| BackgroundGradient (cmap : string)
| HighlightMax (color : string).

(** Externally visible effects, in program order. *)
Inductive Event :=
| HttpGet (url : pystr)
| AgentCall (frame : DataFrame) (query : pystr)
| StSubheader (text : pystr)
| StExpander (label : pystr) (expanded : bool)
| StMarkdown (html : pystr)
| Sleep
| StDataframe (frame : DataFrame) (sty : Style)
| StPyplot (fig : Figure)
| StTextArea (label value : pystr) (disabled : bool)
| StButton (label : pystr) (disabled : bool)
| StSelectbox (label : pystr) (options : list pystr)
| StSpinner (text : pystr)
| StSuccess (text : pystr)
| StWarning (text : pystr)
| StError (text : pystr).

Record World := mkWorld { session : Session; out : list Event }.

(** ** The monad of Python computations *)

Definition Py (A : Type) : Type := World -> Res A * World.

#[global] Instance Py_ret : MRet Py := fun A a w => (inr a, w).
#[global] Instance Py_bind : MBind Py := fun A B f m w =>
  match m w with
  | (inl e, w') => (inl e, w')
  | (inr a, w') => f a w'
  end.

Definition lift {A} (r : Res A) : Py A := fun w => (r, w).

Definition emit (ev : Event) : Py unit :=
  fun w => (inr tt, mkWorld (session w) (out w ++ [ev])).

Definition get_session : Py Session := fun w => (inr (session w), w).

Definition put_session (s : Session) : Py unit :=
  fun w => (inr tt, mkWorld s (out w)).

(** [try: body  except Exception as e: handler(e)] *)
Definition try_except {A} (body : Py A) (handler : Exn -> Py A) : Py A :=
  fun w =>
    match body w with
    | (inl e, w') => handler e w'
    | (inr a, w') => (inr a, w')
    end.

(** ** Parsed markup

    What [BeautifulSoup(..., 'html.parser')] builds: text nodes and named
    elements with children, in document order. *)
Inductive Node :=
| NText (s : pystr)
| NElem (name : string) (kids : list Node).

(** The soup object is the list of top-level nodes of the document. *)
Abbreviation Soup := (list Node).

(** The node itself and its descendants whose name is in [names], in
    document (pre-) order. *)
Fixpoint matching (names : list string) (n : Node) : list Node :=
  match n with
  | NText _ => []
  | NElem nm kids =>
      (if bool_decide (nm ∈ names) then [n] else [])
      ++ (fix go (l : list Node) : list Node :=
            match l with
            | [] => []
            | k :: l' => matching names k ++ go l'
            end) kids
  end.

(** [soup.find_all(name)] / [soup([name1, name2])] *)
Definition find_all (names : list string) (soup : Soup) : list Node :=
  flat_map (matching names) soup.

(** The tree once every element named in [names] has been [decompose]d:
    such an element disappears with everything below it. *)
Fixpoint decomposed (names : list string) (n : Node) : list Node :=
  match n with
  | NText _ => [n]
  | NElem nm kids =>
      if bool_decide (nm ∈ names) then []
      else [NElem nm
              ((fix go (l : list Node) : list Node :=
                  match l with
                  | [] => []
                  | k :: l' => decomposed names k ++ go l'
                  end) kids)]
  end.

(** [for script in soup(names): script.decompose()] *)
Definition decompose_all (names : list string) (soup : Soup) : Soup :=
  flat_map (decomposed names) soup.

(** The text nodes below a node, in document order. *)
Fixpoint strings_of (n : Node) : list pystr :=
  match n with
  | NText s => [s]
  | NElem _ kids =>
      (fix go (l : list Node) : list pystr :=
         match l with
         | [] => []
         | k :: l' => strings_of k ++ go l'
         end) kids
  end.

(** [soup.get_text()] *)
Definition get_text (soup : Soup) : pystr :=
  concat (flat_map strings_of soup).

(** [soup.get_text(strip=True)]: every string stripped, empty ones dropped. *)
Definition get_text_strip (soup : Soup) : pystr :=
  concat (filter (fun s => s <> []) (map py_strip (flat_map strings_of soup))).

(** Number of elements named [nm] anywhere in the document. *)
Fixpoint count_elems (nm : string) (n : Node) : nat :=
  match n with
  | NText _ => 0
  | NElem nm' kids =>
      (if bool_decide (nm' = nm) then 1 else 0)
      + (fix go (l : list Node) : nat :=
           match l with
           | [] => 0
           | k :: l' => count_elems nm k + go l'
           end) kids
  end.

Definition count_in_soup (nm : string) (soup : Soup) : nat :=
  foldr (fun n acc => count_elems nm n + acc) 0 soup.

(** ** External collaborators *)

(** A [requests.Response], as far as the script reads it. *)
Record Response := mkResponse {
  status_code : Z;
  content_type_header : option pystr;   (* headers.get('content-type') *)
  resp_text : pystr;                    (* response.text *)
  resp_content : list N                 (* response.content *)
}.

(** Every library entry point the script calls.  A call either returns or
    raises an [Exception]. *)
Record Lib := mkLib {
  (* urllib.parse: urlparse(url).scheme *)
  urlparse_scheme : pystr -> Res pystr;
  (* requests *)
  requests_get : pystr -> Res Response;
  raise_for_status : Response -> Res unit;
  (* bs4 *)
  BeautifulSoup : pystr -> Res Soup;
  BeautifulSoup_file : UploadedFile -> Res Soup;
  tag_str : Node -> pystr;                                (* str(table) *)
  (* pandas *)
  pd_read_html : pystr -> Res (list DataFrame);
  pd_read_csv : UploadedFile -> Res DataFrame;
  pd_read_excel : UploadedFile -> pystr -> Res DataFrame;
  pd_DataFrame : pyval -> Res DataFrame;                  (* DataFrame(data) *)
  pd_DataFrame_columns : pyval -> pyval -> Res DataFrame; (* DataFrame(data, columns=c) *)
  pd_DataFrame_xy : pyval -> pyval -> Res DataFrame;      (* DataFrame(data={"x": a, "y": b}) *)
  (* openpyxl: load_workbook(file).sheetnames *)
  load_workbook_sheetnames : UploadedFile -> Res (list pystr);
  (* docx: [p.text for p in Document(file).paragraphs] *)
  docx_paragraphs : UploadedFile -> Res (list pystr);
  (* PyPDF2: [page.extract_text() for page in PdfReader(file).pages] *)
  pdf_page_texts : list N -> Res (list pystr);
  (* matplotlib *)
  plt_style_use : pystr -> Res unit;
  ax_bar : pyval -> pyval -> Res (list pyval);            (* heights of the bars drawn *)
  ax_plot : pyval -> pyval -> Res unit;
  (* utils.dataframe_agent *)
  dataframe_agent : DataFrame -> pystr -> Res (gmap pystr pyval)
}.

(** ** The functions of the script *)

Section Script.

Variable L : Lib.

(** *** Format normalizers (lines 180-197) *)

(** [py_join sep parts] is [sep.join(parts)]. *)
Fixpoint py_join (sep : pystr) (parts : list pystr) : pystr :=
  match parts with
  | [] => []
  | [p] => p
  | p :: rest => p ++ sep ++ py_join sep rest
  end.

Definition process_word_file (file : UploadedFile) : Py pystr :=
  paras ← lift (docx_paragraphs L file);
  mret (py_join [10%N] paras).

Definition process_html_file (file : UploadedFile) : Py pystr :=
  soup ← lift (BeautifulSoup_file L file);
  let soup := decompose_all ["script"; "style"] soup in
  mret (get_text soup).

Definition process_pdf_file (file : UploadedFile) : Py pystr :=
  texts ← lift (pdf_page_texts L (file_bytes file));
  mret (concat texts).

(** *** fetch_url_content (lines 200-240) *)

(** The list comprehension of lines 212-216: one dictionary per table of
    [soup.find_all('table')], numbered by [enumerate] from [i]. *)
Fixpoint extract_tables (i : nat) (tables : list Node) : Res (list pyval) :=
  match tables with
  | [] => ok []
  | table :: rest =>
      frames ← pd_read_html L (tag_str L table);
      frame ← py_index0 frames;
      let data := to_dict_records frame in
      frames' ← pd_read_html L (tag_str L table);
      frame' ← py_index0 frames';
      let columns := columns_list frame' in
      rest' ← extract_tables (S i) rest;
      ok (VDict (dict [(py "table_id", VStr (py "table_" ++ py_str_nat i));
                       (py "data", data);
                       (py "columns", columns)]) :: rest')
  end.

(** The body of the [try] block. *)
Definition fetch_url_body (target_url : pystr) : Py (gmap pystr pyval) :=
  scheme ← lift (urlparse_scheme L target_url);
  let target_url :=
    if truthy_str scheme then target_url else py "https://" ++ target_url in
  emit (HttpGet target_url) ;;
  response ← lift (requests_get L target_url);
  lift (raise_for_status L response) ;;
  let content_type := default (empty_str) (content_type_header response) in
  if py_in_str (py "text/html") content_type then
    soup ← lift (BeautifulSoup L (resp_text response));
    tables ← lift (extract_tables 0 (find_all ["table"] soup));
    let soup := decompose_all ["script"; "style"] soup in
    mret (dict [(py "type", VStr (py "html"));
                (py "tables", VList tables);
                (py "text", VStr (get_text_strip soup));
                (py "status", VStr (py "success"))])
  else if py_in_str (py "application/pdf") content_type then
    texts ← lift (pdf_page_texts L (resp_content response));
    mret (dict [(py "type", VStr (py "pdf"));
                (py "text", VStr (concat texts));
                (py "status", VStr (py "success"))])
  else
    mret (dict [(py "type", VStr (py "unknown"));
                (py "content", VStr (resp_text response));
                (py "status", VStr (py "success"))]).

Definition fetch_url_content (target_url : pystr) : Py (gmap pystr pyval) :=
  try_except (fetch_url_body target_url)
    (fun e => mret (dict [(py "status", VStr (py "error"));
                          (py "message", VStr (exn_str e))])).

(** *** create_chart (lines 137-177) *)

(** [len(v)] *)
Definition py_len (v : pyval) : Res nat :=
  match v with
  | VStr s => ok (length s)
  | VList l => ok (length l)
  | VDict d => ok (size d)
  | VNone => err (TypeError "object of type 'NoneType' has no len()")
  | VNum _ => err (TypeError "object of type 'int' has no len()")
  end.

(** [type(v).__name__] *)
Definition py_type_name (v : pyval) : string :=
  match v with
  | VStr _ => "str"
  | VNum _ => "int"
  | VList _ => "list"
  | VDict _ => "dict"
  | VNone => "NoneType"
  end.

(** What Python raises for a method the value does not have. *)
Definition AttributeError (v : pyval) (method : string) : Exn :=
  mkExn "AttributeError"
    (py "'" ++ py (py_type_name v) ++ py "' object has no attribute '"
     ++ py method ++ py "'").

(** [input_data.get(k, default)]; [input_data] is known to be a dictionary
    once [input_data["columns"]] has been read. *)
Definition py_get (v : pyval) (k : pystr) (dflt : pyval) : Res pyval :=
  match v with
  | VDict d => ok (dict_get d k dflt)
  | _ => err (AttributeError v "get")
  end.

Definition create_chart (input_data : pyval) (chart_type : string) : Py unit :=
  lift (plt_style_use L (py "seaborn-white grid")) ;;
  x ← lift (py_getitem input_data (py "columns"));
  y ← lift (py_getitem input_data (py "data"));
  lift (pd_DataFrame_xy L x y) ;;
  if bool_decide (chart_type = "bar") then
    cols ← lift (py_getitem input_data (py "columns"));
    lift (py_len cols) ;;
    cols ← lift (py_getitem input_data (py "columns"));
    data ← lift (py_getitem input_data (py "data"));
    heights ← lift (ax_bar L cols data);
    title ← lift (py_get input_data (py "title") (VStr (py "统计图表")));
    x_label ← lift (py_get input_data (py "x_label") (VStr (py "类别")));
    y_label ← lift (py_get input_data (py "y_label") (VStr (py "数值")));
    emit (StPyplot (mkFigure BarChart cols data heights title x_label y_label))
  else if bool_decide (chart_type = "line") then
    cols ← lift (py_getitem input_data (py "columns"));
    data ← lift (py_getitem input_data (py "data"));
    lift (ax_plot L cols data) ;;
    title ← lift (py_get input_data (py "title") (VStr (py "趋势图表")));
    x_label ← lift (py_get input_data (py "x_label") (VStr (py "时间/类别")));
    y_label ← lift (py_get input_data (py "y_label") (VStr (py "数值")));
    emit (StPyplot (mkFigure LineChart cols data [] title x_label y_label))
  else mret tt.

(** *** display_result (lines 243-269) *)

(** [v.split()] on the answer: only a [str] has the method. *)
Definition py_split_val (v : pyval) : Res (list pystr) :=
  match v with
  | VStr s => ok (py_split s)
  | _ => err (AttributeError v "split")
  end.

(** The typing loop of lines 249-252, started with [full_response]. *)
Fixpoint typing_loop (full_response : pystr) (chunks : list pystr)
  : Py pystr :=
  match chunks with
  | [] => mret full_response
  | chunk :: rest =>
      let full_response := full_response ++ chunk ++ py " " in
      emit (StMarkdown (py "<div class='card'>" ++ full_response
                        ++ py "▌</div>")) ;;
      emit Sleep ;;
      typing_loop full_response rest
  end.

Definition has_key (k : pystr) (d : gmap pystr pyval) : bool :=
  bool_decide (is_Some (d !! k)).

Definition render_answer (analysis_result : gmap pystr pyval) : Py unit :=
  emit (StExpander (py "分析结果") true) ;;
  answer ← lift (py_getitem (VDict analysis_result) (py "answer"));
  chunks ← lift (py_split_val answer);
  full_response ← typing_loop (empty_str) chunks;
  emit (StMarkdown (py "<div class='card'>" ++ full_response ++ py "</div>")).

Definition render_table (analysis_result : gmap pystr pyval) : Py unit :=
  emit (StExpander (py "数据表格") true) ;;
  table ← lift (py_getitem (VDict analysis_result) (py "table"));
  data ← lift (py_getitem table (py "data"));
  table ← lift (py_getitem (VDict analysis_result) (py "table"));
  columns ← lift (py_getitem table (py "columns"));
  frame ← lift (pd_DataFrame_columns L data columns);
  emit (StDataframe frame (HighlightMax "#d8f3dc")).

Definition render_bar (analysis_result : gmap pystr pyval) : Py unit :=
  emit (StExpander (py "柱状图") true) ;;
  spec ← lift (py_getitem (VDict analysis_result) (py "bar"));
  create_chart spec "bar".

Definition render_line (analysis_result : gmap pystr pyval) : Py unit :=
  emit (StExpander (py "折线图") true) ;;
  spec ← lift (py_getitem (VDict analysis_result) (py "line"));
  create_chart spec "line".

Definition display_result (analysis_result : gmap pystr pyval) : Py unit :=
  (if has_key (py "answer") analysis_result
   then render_answer analysis_result else mret tt) ;;
  (if has_key (py "table") analysis_result
   then render_table analysis_result else mret tt) ;;
  (if has_key (py "bar") analysis_result
   then render_bar analysis_result else mret tt) ;;
  (if has_key (py "line") analysis_result
   then render_line analysis_result else mret tt).

(** *** The page (lines 288-423) *)

(** [v[:n]] *)
Definition py_slice_to (n : nat) (v : pyval) : Res pyval :=
  match v with
  | VStr s => ok (VStr (take n s))
  | VList l => ok (VList (take n l))
  | VNone => err (TypeError "'NoneType' object is not subscriptable")
  | VNum _ => err (TypeError "'int' object is not subscriptable")
  | VDict _ => err (TypeError "unhashable type: 'slice'")
  end.

(** [v + s] for a [str] literal [s]: defined on a [str] only. *)
Definition py_add_str (v : pyval) (s : pystr) : Res pystr :=
  match v with
  | VStr a => ok (a ++ s)
  | VList _ =>
      err (mkExn "TypeError"
             (py "can only concatenate list (not " ++ [34%N] ++ py "str"
              ++ [34%N] ++ py ") to list"))
  | _ =>
      err (mkExn "TypeError"
             (py "unsupported operand type(s) for +: '" ++ py (py_type_name v)
              ++ py "' and 'str'"))
  end.

(** [v == s] for a [str] literal [s]. *)
Definition py_eq_str (v : pyval) (s : pystr) : bool :=
  match v with
  | VStr a => bool_decide (a = s)
  | _ => false
  end.

(** How an f-string renders a value.  The text of a container is not
    modelled (the script only formats strings and numbers). *)
Definition py_format (v : pyval) : pystr :=
  match v with
  | VStr s => s
  | VNone => py "None"
  | VNum z => py (pretty z)
  | VList _ => py "[...]"
  | VDict _ => py "{...}"
  end.

(** [v[0]] on a list value. *)
Definition py_first (v : pyval) : Res pyval :=
  match v with
  | VList l => py_index0 l
  | VStr (c :: _) => ok (VStr [c])
  | VStr [] => err (IndexError "string index out of range")
  | VDict _ => err (mkExn "KeyError" (py "0"))
  | VNone => err (TypeError "'NoneType' object is not subscriptable")
  | VNum _ => err (TypeError "'int' object is not subscriptable")
  end.

(** The values of the widgets in one run of the page. *)
Record Widgets := mkWidgets {
  w_input_method : InputMethod;          (* radio "数据输入方式:" *)
  w_file_type : FileType;                (* radio "文件类型:" *)
  w_file_uploader : option UploadedFile; (* st.file_uploader *)
  w_sheet_name : nat;                    (* position chosen in the sheet selectbox *)
  w_input_url : option pystr;            (* st.text_input, key 'input_url' *)
  w_query : pystr;                       (* st.text_area, key 'query_input' *)
  w_analyze_button : bool                (* st.button: clicked in this run *)
}.

Definition modify_session (f : Session -> Session) : Py unit :=
  s ← get_session; put_session (f s).

(** Lines 288-308.  The uploader's value is stored under [uploaded_file];
    the text input writes [input_url] through its widget key.  In upload
    mode the script neither draws the text input nor reads [input_url], and
    the slot is left as it is; that Streamlit forgets the state of a widget
    a run does not draw, after which lines 28-29 set the slot to [None]
    again, is not part of the model. *)
Definition input_section (w : Widgets) : Py unit :=
  match w_input_method w with
  | UploadFile => modify_session (set_uploaded_file (w_file_uploader w))
  | InputURL => modify_session (set_input_url (w_input_url w))
  end.

(** The preview of lines 354-356 (and its copies): an expander holding a
    text area with the first 2000 characters. *)
Definition text_preview (label : pystr) (text : pyval) : Py unit :=
  emit (StExpander label false) ;;
  head ← lift (py_slice_to 2000 text);
  n ← lift (py_len text);
  shown ← lift (py_add_str head
                  (if bool_decide (2000 < n) then py "..." else empty_str));
  emit (StTextArea (empty_str) shown false).

(** Lines 332-368: ingestion of an uploaded file. *)
Definition ingest_file (w : Widgets) (file : UploadedFile) : Py unit :=
  emit (StSubheader (py "数据预览")) ;;
  match w_file_type w with
  | Excel =>
      sheet_names ← lift (load_workbook_sheetnames L file);
      sheet ← (if bool_decide (1 < length sheet_names)
               then emit (StSelectbox (py "选择工作表:") sheet_names) ;;
                    lift (match sheet_names !! w_sheet_name w with
                          | Some nm => ok nm
                          | None => py_index0 sheet_names
                          end)
               else lift (py_index0 sheet_names));
      frame ← lift (pd_read_excel L file sheet);
      modify_session (set_df frame) ;;
      emit (StDataframe (df_head 2000 frame) (BackgroundGradient "Blues"))
  | CSV =>
      frame ← lift (pd_read_csv L file);
      modify_session (set_df frame) ;;
      emit (StDataframe (df_head 2000 frame) (BackgroundGradient "Blues"))
  | Word =>
      text ← process_word_file file;
      modify_session (set_text_content (VStr text)) ;;
      text_preview (py "文档内容预览") (VStr text)
  | HTML =>
      text ← process_html_file file;
      modify_session (set_text_content (VStr text)) ;;
      text_preview (py "HTML内容预览") (VStr text)
  | PDF =>
      text ← process_pdf_file file;
      modify_session (set_text_content (VStr text)) ;;
      text_preview (py "PDF内容预览") (VStr text)
  end.

(** Lines 370-392: ingestion of a URL. *)
Definition ingest_url (url : pystr) : Py unit :=
  emit (StSubheader (py "URL内容预览")) ;;
  emit (StSpinner (py "获取内容中...")) ;;
  fetched ← fetch_url_content url;
  let content := VDict fetched in
  status ← lift (py_getitem content (py "status"));
  if py_eq_str status (py "success") then
    type ← lift (py_getitem content (py "type"));
    if py_eq_str type (py "html") then
      tables ← lift (py_getitem content (py "tables"));
      (if truthy tables then
         n ← lift (py_len tables);
         emit (StSuccess (py "成功从网页中提取了 " ++ py_str_nat n
                          ++ py " 个表格")) ;;
         first ← lift (py_first tables);
         data ← lift (py_getitem first (py "data"));
         frame ← lift (pd_DataFrame L data);
         modify_session (set_df frame) ;;
         emit (StDataframe (df_head 10 frame) (BackgroundGradient "Greens"))
       else mret tt) ;;
      text ← lift (py_getitem content (py "text"));
      text_preview (py "网页文本内容") text
    else
      text ← lift (let t := dict_get fetched (py "text") VNone in
                   if truthy t then ok t else py_getitem content (py "content"));
      modify_session (set_text_content text) ;;
      text_preview (py "内容预览") text
  else
    message ← lift (py_getitem content (py "message"));
    emit (StError (py "错误: " ++ py_format message)).

(** Lines 332 and 370: which ingestion runs. *)
Definition data_preview (w : Widgets) : Py unit :=
  s ← get_session;
  match w_input_method w with
  | UploadFile =>
      match uploaded_file s with
      | Some file => ingest_file w file
      | None => mret tt
      end
  | InputURL =>
      match input_url s with
      | Some url => if truthy_str url then ingest_url url else mret tt
      | None => mret tt
      end
  end.

(** Lines 417-420: the dispatch between the agent and the text echo. *)
Definition analysis_dispatch (query : pystr) : Py (gmap pystr pyval) :=
  s ← get_session;
  match df s with
  | Some frame =>
      emit (AgentCall frame query) ;;
      lift (dataframe_agent L frame query)
  | None =>
      head ← lift (py_slice_to 3000 (text_content s));
      mret (dict [(py "answer",
                   VStr (py "文本分析结果:" ++ [10; 10]%N ++ py_format head))])
  end.

(** Line 409-410: the test that no data source has been provided. *)
Definition source_missing (input_method : InputMethod) (s : Session) : bool :=
  match input_method with
  | UploadFile => negb (bool_decide (is_Some (uploaded_file s)))
  | InputURL => negb (from_option truthy_str false (input_url s))
  end.

(** Lines 409-423: what a click on the analysis button runs. *)
Definition analyze_button_handler (input_method : InputMethod)
    (query : pystr) : Py unit :=
  s ← get_session;
  if source_missing input_method s then
    emit (StWarning (py "请先提供数据源"))
  else if negb (truthy_str query) then
    emit (StWarning (py "请输入分析需求"))
  else
    emit (StSpinner (py "智能分析中，请稍候...")) ;;
    try_except
      (result ← analysis_dispatch query;
       display_result result)
      (fun e => emit (StError (py "分析过程中发生错误: " ++ exn_str e))).

(** Lines 396-423: the query box and the button.  [st.button] is called
    without a [disabled] argument, so the button is drawn enabled. *)
Definition query_section (w : Widgets) : Py unit :=
  s ← get_session;
  emit (StSubheader (py "数据分析请求")) ;;
  emit (StTextArea (py "输入您的数据分析需求:") (w_query w)
          (negb (bool_decide (is_Some (df s))
                 || negb (is_None (text_content s))))) ;;
  emit (StButton (py "开始分析") false) ;;
  if w_analyze_button w
  then analyze_button_handler (w_input_method w) (w_query w)
  else mret tt.

(** One run of the page, top to bottom. *)
Definition page (w : Widgets) : Py unit :=
  input_section w ;;
  data_preview w ;;
  query_section w.

End Script.

(** ** A reference library

    One concrete behaviour for every collaborator, small enough to evaluate:
    a handful of addresses, documents and queries.  It is used to run the
    script on concrete inputs.  Theorems quantify over all libraries; where
    one speaks of the scheme of an address, it asks the library to agree
    with [urlparse_scheme] below, the rule of the standard library. *)
Module Ref.

(** [urlparse(url).scheme], after [urllib.parse.urlsplit] of CPython 3.11:
    leading C0 control characters and blanks are stripped, tabs and line
    breaks are removed everywhere, and the text before the first colon is
    the scheme when it is non-empty, starts with an ASCII letter and
    consists of letters, digits, [+], [-] and [.]; it is lower-cased.  When
    [//] follows, the host part (up to the first [/], [?] or [#]) is checked
    and a lone square bracket raises [ValueError].  The further checks
    urlsplit makes on the host part (NFKC normalisation of a host that is not
    ASCII, the form of a bracketed host) are not modelled. *)
Definition is_alpha (c : N) : bool :=
  ((65 <=? c) && (c <=? 90) || (97 <=? c) && (c <=? 122))%N.

Definition scheme_char (c : N) : bool :=
  (is_alpha c || (48 <=? c) && (c <=? 57)
   || (c =? 43) || (c =? 45) || (c =? 46))%N.

Definition lower (c : N) : N :=
  if ((65 <=? c) && (c <=? 90))%N then (c + 32)%N else c.

Fixpoint before_colon (s : pystr) : option pystr :=
  match s with
  | [] => None
  | c :: s' =>
      if (c =? 58)%N then Some []
      else (c ::.) <$> before_colon s'
  end.

(** [url.lstrip(_WHATWG_C0_CONTROL_OR_SPACE)] *)
Fixpoint lstrip_c0 (url : pystr) : pystr :=
  match url with
  | c :: rest => if (c <=? 32)%N then lstrip_c0 rest else url
  | [] => []
  end.

(** One of the characters of [_UNSAFE_URL_BYTES_TO_REMOVE]: tab, line feed,
    carriage return. *)
Definition unsafe_char (c : N) : bool :=
  ((c =? 9) || (c =? 10) || (c =? 13))%N.

Definition url_cleaned (url : pystr) : pystr :=
  filter (fun c => unsafe_char c = false) (lstrip_c0 url).

(** The scheme and what follows its colon; no scheme leaves the address
    whole. *)
Definition split_scheme (url : pystr) : pystr * pystr :=
  match before_colon url with
  | Some (c :: rest) =>
      if is_alpha c && forallb scheme_char rest
      then (map lower (c :: rest), drop (S (length (c :: rest))) url)
      else ([], url)
  | _ => ([], url)
  end.

(** The host part of what follows [//]: up to the first [/], [?] or [#]. *)
Fixpoint netloc_of (s : pystr) : pystr :=
  match s with
  | c :: rest =>
      if ((c =? 47) || (c =? 63) || (c =? 35))%N then []
      else c :: netloc_of rest
  | [] => []
  end.

Definition lone_bracket (netloc : pystr) : bool :=
  xorb (bool_decide (91%N ∈ netloc)) (bool_decide (93%N ∈ netloc)).

Definition InvalidIPv6 : Exn := mkExn "ValueError" (py "Invalid IPv6 URL").

Definition urlparse_scheme (url : pystr) : Res pystr :=
  let '(scheme, rest) := split_scheme (url_cleaned url) in
  if py_startswith (py "//") rest && lone_bracket (netloc_of (drop 2 rest))
  then err InvalidIPv6 else ok scheme.

(** Serialisation of a node, as [str(tag)] gives it. *)
Fixpoint tag_str (n : Node) : pystr :=
  match n with
  | NText s => s
  | NElem nm kids =>
      py "<" ++ py nm ++ py ">"
      ++ (fix go (l : list Node) : pystr :=
            match l with
            | [] => []
            | k :: l' => tag_str k ++ go l'
            end) kids
      ++ py "</" ++ py nm ++ py ">"
  end.

Definition cell (tag : string) (s : string) : Node := NElem tag [NText (py s)].

(** A table with a header row and two data rows, and a table no cell of
    which holds text. *)
Definition sales_table : Node :=
  NElem "table"
    [NElem "tr" [cell "th" "region"; cell "th" "sales"];
     NElem "tr" [cell "td" "1"; cell "td" "10"];
     NElem "tr" [cell "td" "2"; cell "td" "30"]].

Definition stock_table : Node :=
  NElem "table"
    [NElem "tr" [cell "th" "item"];
     NElem "tr" [cell "td" "7"]].

Definition empty_table : Node := NElem "table" [].

Definition sales_frame : DataFrame :=
  mkFrame [py "region"; py "sales"] [[1; 10]; [2; 30]]%Z.

Definition stock_frame : DataFrame := mkFrame [py "item"] [[7]]%Z.

Definition report_page : Soup :=
  [NElem "html"
     [NElem "head" [cell "style" "p { color: red }"; cell "title" "Report "];
      NElem "body"
        [cell "p" " Quarterly figures ";
         sales_table;
         cell "script" "track()";
         stock_table]]].

Definition broken_page : Soup :=
  [NElem "body" [cell "p" "Nothing yet"; empty_table]].

Definition page_text (soup : Soup) : pystr := concat (map tag_str soup).

Definition ConnectionError : Exn :=
  mkExn "ConnectionError" (py "Failed to establish a new connection").

Definition HTTPError : Exn :=
  mkExn "HTTPError" (py "404 Client Error: Not Found for url").

Definition pystr_eqb (a b : pystr) : bool := bool_decide (a = b).

(** [requests] has connection adapters for [http://] and [https://] only
    (the prefix is compared without regard to case). *)
Definition InvalidSchema (url : pystr) : Exn :=
  mkExn "InvalidSchema"
    (py "No connection adapters were found for '" ++ url ++ py "'").

Definition has_adapter (url : pystr) : bool :=
  py_startswith (py "http://") (map lower url)
  || py_startswith (py "https://") (map lower url).

Definition requests_get (url : pystr) : Res Response :=
  if negb (has_adapter url) then err (InvalidSchema url)
  else if pystr_eqb url (py "https://example.com/data") then
    ok (mkResponse 200 (Some (py "text/html; charset=utf-8"))
          (page_text report_page) [])
  else if pystr_eqb url (py "https://example.com/broken") then
    ok (mkResponse 200 (Some (py "text/html")) (page_text broken_page) [])
  else if pystr_eqb url (py "http://example.com/notes.txt") then
    ok (mkResponse 200 (Some (py "text/plain")) (py "plain notes") [])
  else if pystr_eqb url (py "https://example.com/missing") then
    ok (mkResponse 404 (Some (py "text/html")) (py "not found") [])
  else err ConnectionError.

(** [raise_for_status] raises on 4xx and 5xx. *)
Definition raise_for_status (r : Response) : Res unit :=
  if ((400 <=? status_code r) && (status_code r <? 600))%Z
  then err HTTPError else ok tt.

Definition BeautifulSoup (text : pystr) : Res Soup :=
  if pystr_eqb text (page_text report_page) then ok report_page
  else if pystr_eqb text (page_text broken_page) then ok broken_page
  else ok [NText text].

(** [pd.read_html] raises [ValueError] when no table with text is found. *)
Definition pd_read_html (text : pystr) : Res (list DataFrame) :=
  if pystr_eqb text (tag_str sales_table) then ok [sales_frame]
  else if pystr_eqb text (tag_str stock_table) then ok [stock_frame]
  else err (mkExn "ValueError" (py "No tables found")).

Definition csv_file : UploadedFile := mkFile (py "sales.csv") [1; 2; 3]%N.
Definition word_file : UploadedFile := mkFile (py "notes.docx") [4; 5]%N.

Definition ParseError : Exn := mkExn "ValueError" (py "cannot parse file").

Definition pd_read_csv (f : UploadedFile) : Res DataFrame :=
  if bool_decide (file_bytes f = file_bytes csv_file)
  then ok sales_frame else err ParseError.

Definition docx_paragraphs (f : UploadedFile) : Res (list pystr) :=
  if bool_decide (file_bytes f = file_bytes word_file)
  then ok [py "First paragraph"; py "Second paragraph"] else err ParseError.

(** [pd.DataFrame(data={"x": a, "y": b})] raises [ValueError] when the two
    lists differ in length. *)
Definition pd_DataFrame_xy (x y : pyval) : Res DataFrame :=
  match x, y with
  | VList xs, VList ys =>
      if bool_decide (length xs = length ys)
      then ok (mkFrame [py "y"] [])
      else err (mkExn "ValueError" (py "All arrays must be of the same length"))
  | _, _ => ok (mkFrame [py "y"] [])
  end.

(** [pd.DataFrame(records)]: the columns are the keys of the first row
    dictionary, the cells the numbers found under them. *)
Definition row_cells (cols : list pystr) (row : pyval) : list Z :=
  match row with
  | VDict d =>
      omap (fun c => match d !! c with
                     | Some (VNum z) => Some z
                     | _ => None
                     end) cols
  | _ => []
  end.

Definition pd_DataFrame (data : pyval) : Res DataFrame :=
  match data with
  | VList (VDict d :: rows) =>
      let cols := (map_to_list d).*1 in
      ok (mkFrame cols (map (row_cells cols) (VDict d :: rows)))
  | VList [] => ok (mkFrame [] [])
  | _ => err ParseError
  end.

Definition pd_DataFrame_columns (data columns : pyval) : Res DataFrame :=
  match columns with
  | VList cs => ok (mkFrame (map py_format cs) [])
  | _ => err ParseError
  end.

(** [plt.style.use(name)]: matplotlib applies a style of its library and
    raises [OSError] for a name that is neither in the library nor the path
    or URL of a style file (of which this instance has none).  The library
    below is the one of matplotlib 3.6 and later, with the names the
    seaborn styles had before. *)
Definition style_library : list pystr :=
  map py
    ["default"; "classic"; "Solarize_Light2"; "bmh"; "dark_background";
     "fast"; "fivethirtyeight"; "ggplot"; "grayscale";
     "tableau-colorblind10";
     "seaborn-v0_8"; "seaborn-v0_8-bright"; "seaborn-v0_8-colorblind";
     "seaborn-v0_8-dark"; "seaborn-v0_8-dark-palette";
     "seaborn-v0_8-darkgrid"; "seaborn-v0_8-deep"; "seaborn-v0_8-muted";
     "seaborn-v0_8-notebook"; "seaborn-v0_8-paper"; "seaborn-v0_8-pastel";
     "seaborn-v0_8-poster"; "seaborn-v0_8-talk"; "seaborn-v0_8-ticks";
     "seaborn-v0_8-white"; "seaborn-v0_8-whitegrid";
     "seaborn"; "seaborn-dark"; "seaborn-darkgrid"; "seaborn-ticks";
     "seaborn-white"; "seaborn-whitegrid"].

Definition StyleError (name : pystr) : Exn :=
  mkExn "OSError"
    (py "'" ++ name
     ++ py "' is not a valid package style, path of style file, URL of style file, or library style name (library styles are listed in `style.available`)").

Definition plt_style_use (name : pystr) : Res unit :=
  if bool_decide (name ∈ style_library) then ok tt
  else err (StyleError name).

Definition ax_bar (x y : pyval) : Res (list pyval) :=
  match y with
  | VList ys => ok ys
  | _ => err (TypeError "bar heights must be a sequence")
  end.

Definition chart_spec : pyval :=
  VDict (dict [(py "columns", VList [VStr (py "north"); VStr (py "south")]);
               (py "data", VList [VNum 10; VNum 30]);
               (py "title", VStr (py "Sales"))]).

Definition full_result : gmap pystr pyval :=
  dict [(py "answer", VStr (py "Sales grow  southwards"));
        (py "table", VDict (dict [(py "data", VList [VList [VNum 1; VNum 10]]);
                               (py "columns", VList [VStr (py "region");
                                                   VStr (py "sales")])]));
        (py "bar", chart_spec);
        (py "line", chart_spec)].

(** A chart spec with two labels and one value. *)
Definition ragged_spec : pyval :=
  VDict (dict [(py "columns", VList [VStr (py "north"); VStr (py "south")]);
               (py "data", VList [VNum 10])]).

(** The agent: fails on the query [crash], answers [ragged chart] with a
    bar chart whose lists differ in length, and everything else with a
    result holding all four keys. *)
Definition dataframe_agent (frame : DataFrame) (query : pystr)
  : Res (gmap pystr pyval) :=
  if pystr_eqb query (py "crash")
  then err (mkExn "RuntimeError" (py "model unavailable"))
  else if pystr_eqb query (py "ragged chart")
  then ok (dict [(py "bar", ragged_spec)])
  else ok full_result.

Definition lib : Lib :=
  mkLib
    urlparse_scheme
    requests_get
    raise_for_status
    BeautifulSoup
    (fun _ => ok [NText (py "uploaded page")])      (* BeautifulSoup_file *)
    tag_str
    pd_read_html
    pd_read_csv
    (fun f _ => pd_read_csv f)                       (* pd_read_excel *)
    pd_DataFrame
    pd_DataFrame_columns
    pd_DataFrame_xy
    (fun _ => ok [py "Sheet1"])                      (* load_workbook_sheetnames *)
    docx_paragraphs
    (fun _ => ok [py "page one"; py "page two"])     (* pdf_page_texts *)
    plt_style_use
    ax_bar
    (fun _ _ => ok tt)                               (* ax_plot *)
    dataframe_agent.

End Ref.

(** * Vocabulary of the properties *)

(** ** Worlds and footprints *)

Definition w0 : World := mkWorld initial_session [].

(** [log w evs]: the world [w] after the events [evs]. *)
Definition log (w : World) (evs : list Event) : World :=
  mkWorld (session w) (out w ++ evs).

(** [effect R P m]: running [m] relates the session before and after by
    [R] and appends only events satisfying [P] to the log. *)
Definition effect {A} (R : relation Session) (P : Event -> Prop)
    (m : Py A) : Prop :=
  forall w,
    R (session w) (session (m w).2)
    /\ exists evs, out (m w).2 = out w ++ evs /\ Forall P evs.

(** [touches R m]: the session after [m] is related by [R] to the one
    before; unlike [effect] it composes without transitivity of [R]. *)
Definition touches {A} (R : relation Session) (m : Py A) : Prop :=
  forall w, R (session w) (session (m w).2).

Definition any_event (ev : Event) : Prop := True.

Definition is_http (ev : Event) : Prop :=
  match ev with HttpGet _ => True | _ => False end.

Definition is_pyplot (ev : Event) : Prop :=
  match ev with StPyplot _ => True | _ => False end.

Definition not_pyplot (ev : Event) : Prop :=
  match ev with StPyplot _ => False | _ => True end.

Definition same_df : relation Session := fun s s' => df s' = df s.

Definition same_text : relation Session :=
  fun s s' => text_content s' = text_content s.

Definition same_content : relation Session :=
  fun s s' => df s' = df s /\ text_content s' = text_content s.

(** At most one of the two content slots differs. *)
Definition one_slot : relation Session :=
  fun s s' => text_content s' = text_content s \/ df s' = df s.

(** ** The fetcher *)

(** The address the GET is issued against, given the parsed scheme. *)
Definition requested (sch url : pystr) : pystr :=
  if truthy_str sch then url else py "https://" ++ url.

Definition success : pyval := VStr (py "success").

Definition error_result (e : Exn) : gmap pystr pyval :=
  dict [(py "status", VStr (py "error")); (py "message", VStr (exn_str e))].

(** ['kind' in content_type] *)
Definition declared (kind : string) (resp : Response) : bool :=
  py_in_str (py kind) (default (empty_str) (content_type_header resp)).

(** The response the fetcher obtains for an address, when it gets that far:
    the scheme was parsed, the GET returned and the status check passed. *)
Definition fetched (L : Lib) (url : pystr) (resp : Response) : Prop :=
  exists sch,
    urlparse_scheme L url = inr sch
    /\ requests_get L (requested sch url) = inr resp
    /\ raise_for_status L resp = inr tt.

(** The ways the [try] block of [fetch_url_content] can raise: a bad
    address, a network error, a non-success status, and a parse failure in
    one of the three parsers used during classification. *)
Inductive fetch_failure (L : Lib) (url : pystr) : Exn -> Prop :=
| fail_address e :
    urlparse_scheme L url = inl e -> fetch_failure L url e
| fail_network sch e :
    urlparse_scheme L url = inr sch ->
    requests_get L (requested sch url) = inl e -> fetch_failure L url e
| fail_status sch resp e :
    urlparse_scheme L url = inr sch ->
    requests_get L (requested sch url) = inr resp ->
    raise_for_status L resp = inl e -> fetch_failure L url e
| fail_markup resp e :
    fetched L url resp -> declared "text/html" resp = true ->
    BeautifulSoup L (resp_text resp) = inl e -> fetch_failure L url e
| fail_tables resp soup e :
    fetched L url resp -> declared "text/html" resp = true ->
    BeautifulSoup L (resp_text resp) = inr soup ->
    extract_tables L 0 (find_all ["table"] soup) = inl e ->
    fetch_failure L url e
| fail_pdf resp e :
    fetched L url resp -> declared "text/html" resp = false ->
    declared "application/pdf" resp = true ->
    pdf_page_texts L (resp_content resp) = inl e -> fetch_failure L url e.

(** The dictionary built for the [i]-th table when its frame is [f]. *)
Definition table_entry (i : nat) (f : DataFrame) : pyval :=
  VDict (dict [(py "table_id", VStr (py "table_" ++ py_str_nat i));
               (py "data", to_dict_records f);
               (py "columns", columns_list f)]).

(** The frame [pd.read_html(str(table))[0]], when the call returns one. *)
Definition first_frame (L : Lib) (table : Node) : option DataFrame :=
  match pd_read_html L (tag_str L table) with
  | inr (f :: _) => Some f
  | _ => None
  end.

(** The strings of a node that are not below an element named in [names]. *)
Fixpoint visible_strings (names : list string) (n : Node) : list pystr :=
  match n with
  | NText s => [s]
  | NElem nm kids =>
      if bool_decide (nm ∈ names) then []
      else (fix go (l : list Node) : list pystr :=
              match l with
              | [] => []
              | k :: l' => visible_strings names k ++ go l'
              end) kids
  end.

(** The visible text of a page: its strings outside script and style
    elements, each stripped, the empty ones dropped, joined. *)
Definition visible_text (soup : Soup) : pystr :=
  concat (filter (fun s => s <> [])
            (map py_strip
               (flat_map (visible_strings ["script"; "style"]) soup))).

(** As many table entries as the page has table elements. *)
Definition returns_all_tables (L : Lib) (url : pystr) (w : World)
    (soup : Soup) : Prop :=
  exists d entries,
    (fetch_url_content L url w).1 = inr d
    /\ d !! py "tables" = Some (VList entries)
    /\ length entries = count_in_soup "table" soup.

Definition broken_response : Response :=
  mkResponse 200 (Some (py "text/html")) (Ref.page_text Ref.broken_page) [].

Definition report_response : Response :=
  mkResponse 200 (Some (py "text/html; charset=utf-8"))
    (Ref.page_text Ref.report_page) [].

(** ** Addresses *)





(** ** Charts and the renderer *)

(** What pandas documents for a dictionary of columns: lists of different
    lengths are refused. *)
Definition pandas_checks_lengths (L : Lib) : Prop :=
  forall xs ys, length xs <> length ys ->
    raised (pd_DataFrame_xy L (VList xs) (VList ys)).

(** [plt.style.use] raises [e] for the style name of line 139. *)
Definition style_rejected (L : Lib) (e : Exn) : Prop :=
  plt_style_use L (py "seaborn-white grid") = inl e.

(** The four parts of a rendered result. *)
Inductive Part := Narrative | Table | Bar | Line.

Definition part_label (s : Part) : pystr :=
  match s with
  | Narrative => py "分析结果"
  | Table => py "数据表格"
  | Bar => py "柱状图"
  | Line => py "折线图"
  end.

Definition part_key (s : Part) : pystr :=
  match s with
  | Narrative => py "answer"
  | Table => py "table"
  | Bar => py "bar"
  | Line => py "line"
  end.

(** The sections opened in a log: its expanders, in order. *)
Definition opened (ev : Event) : option pystr :=
  match ev with
  | StExpander label _ => Some label
  | _ => None
  end.

Definition sections_of (evs : list Event) : list pystr := omap opened evs.

Definition no_section (ev : Event) : Prop := opened ev = None.

(** The sections of the keys present in a result, in rendering order. *)
Definition present_sections (r : gmap pystr pyval) : list pystr :=
  map part_label
    (filter (fun s => has_key (part_key s) r = true)
            [Narrative; Table; Bar; Line]).

(** What one [if key in result] step contributes. *)
Definition step_sections (s : Part) (r : gmap pystr pyval) : list pystr :=
  if has_key (part_key s) r then [part_label s] else [].

(** A renderer opens its own section first and no other. *)
Definition renders (s : Part) (m : Py unit) : Prop :=
  forall w, exists evs,
    out (m w).2 = out w ++ StExpander (part_label s) true :: evs
    /\ Forall no_section evs.

(** [opens ss m]: [m] opens a prefix of the sections [ss], and all of them
    when it returns normally. *)
Definition opens (ss : list pystr) (m : Py unit) : Prop :=
  forall w, exists evs,
    out (m w).2 = out w ++ evs
    /\ sections_of evs `prefix_of` ss
    /\ ((m w).1 = inr tt -> sections_of evs = ss).

(** ** The page *)

Definition run_page (L : Lib) (wd : Widgets) (s : Session) : Session :=
  session (page L wd (mkWorld s [])).2.

(** Sessions reachable from the initial one by runs of the page, under any
    widget values and any behaviour of the collaborators. *)
Inductive reachable : Session -> Prop :=
| reach_initial : reachable initial_session
| reach_run L wd s : reachable s -> reachable (run_page L wd s).

Definition holds_frame (s : Session) : Prop := is_Some (df s).

Definition holds_text (s : Session) : Prop := is_None (text_content s) = false.

Definition csv_upload : Widgets :=
  mkWidgets UploadFile CSV (Some Ref.csv_file) 0 None (empty_str) false.

Definition word_upload : Widgets :=
  mkWidgets UploadFile Word (Some Ref.word_file) 0 None (empty_str) false.

(** Nothing provided, nothing typed, button clicked. *)
Definition blank : Widgets :=
  mkWidgets UploadFile Excel None 0 None (empty_str) true.

Definition after_csv_then_word : Session :=
  run_page Ref.lib word_upload (run_page Ref.lib csv_upload initial_session).


Definition notes_world : World :=
  mkWorld (run_page Ref.lib word_upload initial_session) [].

Definition notes : pystr :=
  py "First paragraph" ++ [10%N] ++ py "Second paragraph".

Definition crash_world : World :=
  mkWorld (mkSession (Some Ref.sales_frame) VNone (Some Ref.csv_file) None) [].

Definition spinner : Event := StSpinner (py "智能分析中，请稍候...").

(** The [except] branch of the handler. *)
Definition report (e : Exn) : Py unit :=
  emit (StError (py "分析过程中发生错误: " ++ exn_str e)).

Definition echo_label : pystr := py "文本分析结果:" ++ [10; 10]%N.

Definition echo_result (t : pystr) : gmap pystr pyval :=
  dict [(py "answer", VStr (echo_label ++ take 3000 t))].

(** The buttons drawn in a log, with their [disabled] flag. *)
Definition buttons (evs : list Event) : list (pystr * bool) :=
  omap (fun ev => match ev with
                  | StButton label disabled => Some (label, disabled)
                  | _ => None
                  end) evs.

(** The widgets the query section draws in session [s]. *)
Definition query_widgets (wd : Widgets) (s : Session) : list Event :=
  [StSubheader (py "数据分析请求");
   StTextArea (py "输入您的数据分析需求:") (w_query wd)
     (negb (bool_decide (is_Some (df s)) || negb (is_None (text_content s))));
   StButton (py "开始分析") false].

(** ** Vocabulary of the further properties *)

Definition unknown_result (body : pystr) : gmap pystr pyval :=
  dict [(py "type", VStr (py "unknown")); (py "content", VStr body);
        (py "status", VStr (py "success"))].

Definition pdf_result (text : pystr) : gmap pystr pyval :=
  dict [(py "type", VStr (py "pdf")); (py "text", VStr text);
        (py "status", VStr (py "success"))].

Definition html_result (tables : list pyval) (text : pystr) : gmap pystr pyval :=
  dict [(py "type", VStr (py "html")); (py "tables", VList tables);
        (py "text", VStr text); (py "status", VStr (py "success"))].

Inductive fetch_shape : gmap pystr pyval -> Prop :=
| shape_html tables text : fetch_shape (html_result tables text)
| shape_pdf text : fetch_shape (pdf_result text)
| shape_unknown body : fetch_shape (unknown_result body)
| shape_error e : fetch_shape (error_result e).

Definition not_space (c : N) : Prop := py_isspace c = false.

#[global] Instance not_space_dec c : Decision (not_space c) :=
  decide (py_isspace c = false).

(** What the typing loop has shown when it ends: every token followed by a
    space. *)
Definition typed_text (tokens : list pystr) : pystr :=
  concat (map (fun t => t ++ py " ") tokens).

Definition card (body : pystr) : pystr :=
  py "<div class='card'>" ++ body ++ py "</div>".

(** The frames of the typing loop started with [shown]: after each token
    the text so far with the cursor, then a pause. *)
Fixpoint typing_frames (shown : pystr) (tokens : list pystr) : list Event :=
  match tokens with
  | [] => []
  | t :: rest =>
      StMarkdown (py "<div class='card'>" ++ (shown ++ t ++ py " ")
                  ++ py "▌</div>")
      :: Sleep :: typing_frames (shown ++ t ++ py " ") rest
  end.

(** The preview shown for a text: the text itself up to 2000 characters,
    otherwise its first 2000 characters and an ellipsis. *)
Definition preview (t : pystr) : pystr :=
  if bool_decide (length t <= 2000) then t else take 2000 t ++ py "...".

Definition not_agent_call (ev : Event) : Prop :=
  match ev with AgentCall _ _ => False | _ => True end.

Definition not_http (ev : Event) : Prop :=
  match ev with HttpGet _ => False | _ => True end.

Definition kind_name (kind : ChartKind) : string :=
  match kind with BarChart => "bar" | LineChart => "line" end.

(** Lines 376-392: what [ingest_url] does with the fetched dictionary. *)
Definition url_rest (L : Lib) (fetched : gmap pystr pyval) : Py unit :=
  let content := VDict fetched in
  status ← lift (py_getitem content (py "status"));
  if py_eq_str status (py "success") then
    type ← lift (py_getitem content (py "type"));
    if py_eq_str type (py "html") then
      tables ← lift (py_getitem content (py "tables"));
      (if truthy tables then
         n ← lift (py_len tables);
         emit (StSuccess (py "成功从网页中提取了 " ++ py_str_nat n
                          ++ py " 个表格")) ;;
         first ← lift (py_first tables);
         data ← lift (py_getitem first (py "data"));
         frame ← lift (pd_DataFrame L data);
         modify_session (set_df frame) ;;
         emit (StDataframe (df_head 10 frame) (BackgroundGradient "Greens"))
       else mret tt) ;;
      text ← lift (py_getitem content (py "text"));
      text_preview (py "网页文本内容") text
    else
      text ← lift (let t := dict_get fetched (py "text") VNone in
                   if truthy t then ok t
                   else py_getitem content (py "content"));
      modify_session (set_text_content text) ;;
      text_preview (py "内容预览") text
  else
    message ← lift (py_getitem content (py "message"));
    emit (StError (py "错误: " ++ py_format message)).

Definition url_banner : list Event :=
  [StSubheader (py "URL内容预览"); StSpinner (py "获取内容中...")].

(** Storing a text and previewing it under [label]. *)
Definition store_text (label t : pystr) (w : World) : World :=
  log (mkWorld (set_text_content (VStr t) (session w)) (out w))
    [StExpander label false; StTextArea empty_str (preview t) false].

(** The frame stored for a page with tables: built from the rows of the
    first entry. *)
Definition store_first_table (L : Lib) (tables : list pyval) : Py unit :=
  match tables with
  | [] => mret tt
  | first :: _ =>
      emit (StSuccess (py "成功从网页中提取了 " ++ py_str_nat (length tables)
                       ++ py " 个表格")) ;;
      data ← lift (py_getitem first (py "data"));
      frame ← lift (pd_DataFrame L data);
      modify_session (set_df frame) ;;
      emit (StDataframe (df_head 10 frame) (BackgroundGradient "Greens"))
  end.

(** The text slot holds [None] or a string. *)
Definition text_ok (s : Session) : Prop :=
  text_content s = VNone \/ exists t, text_content s = VStr t.

(** Nothing stored is lost. *)
Definition grows : relation Session :=
  fun s s' => (holds_frame s -> holds_frame s')
              /\ (holds_text s -> holds_text s').

Definition keeps_text_ok : relation Session :=
  fun s s' => text_ok s -> text_ok s'.

(** The parser that reads an upload of the declared type raises [e]. *)
Definition upload_parser_raises (L : Lib) (ft : FileType)
    (file : UploadedFile) (e : Exn) : Prop :=
  match ft with
  | Excel => load_workbook_sheetnames L file = inl e
  | CSV => pd_read_csv L file = inl e
  | Word => docx_paragraphs L file = inl e
  | HTML => BeautifulSoup_file L file = inl e
  | PDF => pdf_page_texts L (file_bytes file) = inl e
  end.

Definition any_session : relation Session := fun _ _ => True.

Definition is_ui (ev : Event) : Prop :=
  match ev with HttpGet _ | AgentCall _ _ => False | _ => True end.

(** A library that answers every GET with [resp] and reads [pages] from any
    PDF; everything else as in the reference library. *)
Definition serving (resp : Response) (pages : list pystr) : Lib :=
  mkLib
    (urlparse_scheme Ref.lib)
    (fun _ => ok resp)
    (fun _ => ok tt)
    (BeautifulSoup Ref.lib)
    (BeautifulSoup_file Ref.lib)
    (tag_str Ref.lib)
    (pd_read_html Ref.lib)
    (pd_read_csv Ref.lib)
    (pd_read_excel Ref.lib)
    (pd_DataFrame Ref.lib)
    (pd_DataFrame_columns Ref.lib)
    (pd_DataFrame_xy Ref.lib)
    (load_workbook_sheetnames Ref.lib)
    (docx_paragraphs Ref.lib)
    (fun _ => ok pages)
    (plt_style_use Ref.lib)
    (ax_bar Ref.lib)
    (ax_plot Ref.lib)
    (dataframe_agent Ref.lib).

Definition scanned_pdf : Response :=
  mkResponse 200 (Some (py "application/pdf")) (py "%PDF") [37; 80; 68; 70]%N.

Definition greeting_page : Response :=
  mkResponse 200 (Some (py "text/html")) (py "hello") [].

Definition notes_response : Response :=
  mkResponse 200 (Some (py "text/plain")) (py "plain notes") [].

(** A session with an uploaded file whose content was never stored. *)
Definition bare_world : World :=
  mkWorld (mkSession None VNone (Some Ref.csv_file) None) [].

Definition excel_upload : Widgets :=
  mkWidgets UploadFile Excel (Some Ref.csv_file) 0 None empty_str false.

Definition bad_csv_upload : Widgets :=
  mkWidgets UploadFile CSV (Some Ref.word_file) 0 None empty_str false.

(** What the renderer has logged when it reaches the first chart of a
    result whose answer [s] and table [frame] were rendered. *)
Definition rendered_before_chart (s : pystr) (frame : DataFrame)
  : list Event :=
  StExpander (py "分析结果") true
  :: typing_frames [] (py_split s)
  ++ [StMarkdown (card (typed_text (py_split s)));
      StExpander (py "数据表格") true;
      StDataframe frame (HighlightMax "#d8f3dc")].

(** * Properties *)

(** ** The string helpers on examples *)

Example py_ascii : py "https://" = [104; 116; 116; 112; 115; 58; 47; 47]%N.
Proof. reflexivity. Qed.

Example py_label :
  py "文本分析结果:" = [25991; 26412; 20998; 26512; 32467; 26524; 58]%N.
Proof. reflexivity. Qed.

Example py_split_ex :
  py_split (py "  a bc" ++ [10%N] ++ py " d ") = [py "a"; py "bc"; py "d"].
Proof. reflexivity. Qed.

Example py_strip_ex : py_strip (py "  a b  ") = py "a b".
Proof. reflexivity. Qed.

Example py_in_ex :
  py_in_str (py "text/html") (py "text/html; charset=utf-8") = true
  /\ py_in_str (py "text/html") (py "application/json") = false.
Proof. split; reflexivity. Qed.

Example py_str_nat_ex : py_str_nat 12 = py "12".
Proof. reflexivity. Qed.

Example scheme_examples :
  Ref.urlparse_scheme (py "example.com/data") = ok (empty_str)
  /\ Ref.urlparse_scheme (py "HTTP://example.com/data") = ok (py "http")
  /\ Ref.urlparse_scheme (py " http://example.com/data") = ok (py "http")
  /\ Ref.urlparse_scheme (py "localhost:8501") = ok (py "localhost")
  /\ Ref.urlparse_scheme (py "http://[::1") = err Ref.InvalidIPv6.
Proof. repeat split; by vm_compute. Qed.

(** ** Running [Py] computations *)

Lemma bind_run {A B} (m : Py A) (k : A -> Py B) (w : World) :
  (m ≫= k) w =
  match m w with
  | (inl e, w') => (inl e, w')
  | (inr a, w') => k a w'
  end.
Proof. reflexivity. Qed.

Lemma lift_run {A} (r : Res A) (w : World) : lift r w = (r, w).
Proof. reflexivity. Qed.

Lemma bind_lift {A B} (r : Res A) (k : A -> Py B) (w : World) :
  (lift r ≫= k) w =
  match r with
  | inl e => (inl e, w)
  | inr a => k a w
  end.
Proof. rewrite bind_run, lift_run. by destruct r. Qed.

Lemma bind_emit {B} (ev : Event) (k : unit -> Py B) (w : World) :
  (emit ev ≫= k) w = k tt (mkWorld (session w) (out w ++ [ev])).
Proof. reflexivity. Qed.

Lemma bind_get_session {B} (k : Session -> Py B) (w : World) :
  (get_session ≫= k) w = k (session w) w.
Proof. reflexivity. Qed.

Lemma try_except_run {A} (body : Py A) (h : Exn -> Py A) (w : World) :
  try_except body h w =
  match body w with
  | (inl e, w') => h e w'
  | (inr a, w') => (inr a, w')
  end.
Proof. reflexivity. Qed.

Lemma session_log w evs : session (log w evs) = session w.
Proof. reflexivity. Qed.

Lemma log_log w evs evs' : log (log w evs) evs' = log w (evs ++ evs').
Proof. unfold log. simpl. by rewrite (assoc (++)). Qed.

(** ** Footprints compose *)

Section Effect.

Context (R : relation Session) `{!Reflexive R, !Transitive R}.
Context (P : Event -> Prop).

Lemma effect_ret {A} (a : A) : effect R P (mret a).
Proof. intros w. split; [done|]. exists []. by rewrite app_nil_r. Qed.

Lemma effect_lift {A} (r : Res A) : effect R P (lift r).
Proof. intros w. split; [done|]. exists []. by rewrite app_nil_r. Qed.

Lemma effect_get : effect R P get_session.
Proof. intros w. split; [done|]. exists []. by rewrite app_nil_r. Qed.

Lemma effect_emit ev : P ev -> effect R P (emit ev).
Proof. intros Hev w. split; [done|]. exists [ev]. by split; [|constructor]. Qed.

Lemma effect_modify f : (forall s, R s (f s)) -> effect R P (modify_session f).
Proof. intros Hf w. split; [apply Hf|]. exists []. by rewrite app_nil_r. Qed.

Lemma effect_bind {A B} (m : Py A) (k : A -> Py B) :
  effect R P m -> (forall a, effect R P (k a)) -> effect R P (m ≫= k).
Proof.
  intros Hm Hk w. rewrite bind_run.
  destruct (Hm w) as [Hs (evs & Ho & Hp)].
  destruct (m w) as [[e|a] w1]; simpl in *.
  { split; [done|]. by exists evs. }
  destruct (Hk a w1) as [Hs' (evs' & Ho' & Hp')].
  split; [by etrans|].
  exists (evs ++ evs'). rewrite Ho', Ho, (assoc (++)). split; [done|].
  by apply Forall_app.
Qed.

Lemma effect_try {A} (m : Py A) (h : Exn -> Py A) :
  effect R P m -> (forall e, effect R P (h e)) -> effect R P (try_except m h).
Proof.
  intros Hm Hh w. rewrite try_except_run.
  destruct (Hm w) as [Hs (evs & Ho & Hp)].
  destruct (m w) as [[e|a] w1]; simpl in *.
  2:{ split; [done|]. by exists evs. }
  destruct (Hh e w1) as [Hs' (evs' & Ho' & Hp')].
  split; [by etrans|].
  exists (evs ++ evs'). rewrite Ho', Ho, (assoc (++)). split; [done|].
  by apply Forall_app.
Qed.

End Effect.

Lemma effect_weaken {A} (R R' : relation Session) (P P' : Event -> Prop)
    (m : Py A) :
  (forall s s', R s s' -> R' s s') -> (forall ev, P ev -> P' ev) ->
  effect R P m -> effect R' P' m.
Proof.
  intros HR HP Hm w. destruct (Hm w) as [Hs (evs & Ho & Hp)].
  split; [by apply HR|]. exists evs. split; [done|].
  eapply Forall_impl; eauto.
Qed.

Lemma effect_eq_any {A} (R : relation Session) `{!Reflexive R} P (m : Py A) :
  effect eq P m -> effect R any_event m.
Proof. apply effect_weaken; [by intros s s' <- | done]. Qed.

Lemma effect_touches {A} R P (m : Py A) : effect R P m -> touches R m.
Proof. intros Hm w. apply Hm. Qed.

Lemma touches_weaken {A} (R R' : relation Session) (m : Py A) :
  (forall s s', R s s' -> R' s s') -> touches R m -> touches R' m.
Proof. intros HR Hm w. apply HR, Hm. Qed.

Lemma touches_bind_eq {A B} (R : relation Session) `{!Reflexive R}
    (m : Py A) (k : A -> Py B) :
  touches eq m -> (forall a, touches R (k a)) -> touches R (m ≫= k).
Proof.
  intros Hm Hk w. rewrite bind_run. specialize (Hm w).
  destruct (m w) as [[e|a] w1]; simpl in *; rewrite Hm; [done|apply Hk].
Qed.

Lemma touches_eq_bind {A B} (R : relation Session) `{!Reflexive R}
    (m : Py A) (k : A -> Py B) :
  touches R m -> (forall a, touches eq (k a)) -> touches R (m ≫= k).
Proof.
  intros Hm Hk w. rewrite bind_run. specialize (Hm w).
  destruct (m w) as [[e|a] w1]; simpl in *; [done|].
  by rewrite <- (Hk a w1).
Qed.

#[global] Instance same_df_refl : Reflexive same_df.
Proof. by intros s. Qed.

#[global] Instance same_df_trans : Transitive same_df.
Proof. unfold same_df. intros s1 s2 s3 H1 H2. congruence. Qed.

#[global] Instance same_text_refl : Reflexive same_text.
Proof. by intros s. Qed.

#[global] Instance same_text_trans : Transitive same_text.
Proof. unfold same_text. intros s1 s2 s3 H1 H2. congruence. Qed.

#[global] Instance same_content_refl : Reflexive same_content.
Proof. by intros s. Qed.

#[global] Instance same_content_trans : Transitive same_content.
Proof. unfold same_content. intros s1 s2 s3 [] []. split; congruence. Qed.

#[global] Instance one_slot_refl : Reflexive one_slot.
Proof. by left. Qed.

(** Syntax-directed proof of a footprint. *)
Ltac effect_step :=
  lazymatch goal with
  | |- effect _ _ (modify_session _) =>
      apply effect_modify; intros ?; try by repeat red
  | |- effect _ _ (_ ≫= _) => apply effect_bind; [try apply _ | | intros ?]
  | |- effect _ _ (mret _) => apply effect_ret; try apply _
  | |- effect _ _ (lift _) => apply effect_lift; try apply _
  | |- effect _ _ get_session => apply effect_get; try apply _
  | |- effect _ _ (emit _) => apply effect_emit; [try apply _ | try done]
  | |- effect _ _ (try_except _ _) =>
      apply effect_try; [try apply _ | | intros ?]
  | |- effect _ _ (if ?b then _ else _) => destruct b
  | |- effect _ _ (match ?x with _ => _ end) => destruct x
  | |- effect _ _ (let _ := _ in _) => cbv zeta
  end.

Ltac effect_auto := repeat effect_step.

Ltac touches_eq := apply (effect_touches eq any_event); effect_auto.

Ltac touches_refl :=
  apply (touches_weaken eq); [by intros ?? <- | touches_eq].

(** ** The fetcher *)

Lemma fetch_url_content_run L url w :
  fetch_url_content L url w =
  match fetch_url_body L url w with
  | (inl e, w') => (inr (error_result e), w')
  | (inr d, w') => (inr d, w')
  end.
Proof. reflexivity. Qed.

Lemma fetch_url_content_effect L url :
  effect eq is_http (fetch_url_content L url).
Proof. unfold fetch_url_content, fetch_url_body. effect_auto. Qed.

(** Once the scheme is parsed, exactly one GET is logged, whatever happens
    afterwards. *)
Lemma fetch_url_body_run L url w sch :
  urlparse_scheme L url = inr sch ->
  exists r, fetch_url_body L url w = (r, log w [HttpGet (requested sch url)]).
Proof.
  intros Hs. unfold fetch_url_body. rewrite bind_lift, Hs.
  cbv zeta. fold (requested sch url). rewrite bind_emit, bind_lift.
  change (mkWorld _ _) with (log w [HttpGet (requested sch url)]).
  destruct (requests_get L (requested sch url)) as [e|resp]; [by eexists|].
  rewrite bind_lift. destruct (raise_for_status L resp) as [e|[]];
    [by eexists|].
  destruct (py_in_str (py "text/html") _).
  - rewrite bind_lift.
    destruct (BeautifulSoup L (resp_text resp)) as [e|soup]; [by eexists|].
    rewrite bind_lift. destruct (extract_tables L 0 _); by eexists.
  - destruct (py_in_str (py "application/pdf") _); [|by eexists].
    rewrite bind_lift. destruct (pdf_page_texts L _); by eexists.
Qed.

Lemma fetch_body_raises L url w e :
  fetch_failure L url e -> exists w', fetch_url_body L url w = (inl e, w').
Proof.
  unfold fetch_url_body.
  destruct 1 as [e He|sch e Hs Hg|sch resp e Hs Hg Hr
                 |resp e (sch & Hs & Hg & Hr) Hd Hb
                 |resp soup e (sch & Hs & Hg & Hr) Hd Hb Ht
                 |resp e (sch & Hs & Hg & Hr) Hd Hd' Hp].
  - rewrite bind_lift, He. eauto.
  - rewrite bind_lift, Hs. cbv zeta. fold (requested sch url).
    rewrite bind_emit, bind_lift, Hg. eauto.
  - rewrite bind_lift, Hs. cbv zeta. fold (requested sch url).
    rewrite bind_emit, bind_lift, Hg, bind_lift, Hr. eauto.
  - rewrite bind_lift, Hs. cbv zeta. fold (requested sch url).
    rewrite bind_emit, bind_lift, Hg, bind_lift, Hr.
    fold (declared "text/html" resp). rewrite Hd, bind_lift, Hb. eauto.
  - rewrite bind_lift, Hs. cbv zeta. fold (requested sch url).
    rewrite bind_emit, bind_lift, Hg, bind_lift, Hr.
    fold (declared "text/html" resp). rewrite Hd, bind_lift, Hb.
    rewrite bind_lift, Ht. eauto.
  - rewrite bind_lift, Hs. cbv zeta. fold (requested sch url).
    rewrite bind_emit, bind_lift, Hg, bind_lift, Hr.
    fold (declared "text/html" resp) (declared "application/pdf" resp).
    rewrite Hd, Hd', bind_lift, Hp. eauto.
Qed.

(** The [try] block either raises one of the failures listed in
    [fetch_failure] or returns a dictionary tagged as a success. *)
Lemma fetch_body_outcome L url w :
  exists r w',
    fetch_url_body L url w = (r, w')
    /\ match r with
       | inl e => fetch_failure L url e
       | inr d => d !! py "status" = Some success
       end.
Proof.
  unfold fetch_url_body. rewrite bind_lift.
  destruct (urlparse_scheme L url) as [e|sch] eqn:Hs.
  { do 2 eexists; split; [done|]. by constructor. }
  cbv zeta. fold (requested sch url). rewrite bind_emit, bind_lift.
  destruct (requests_get L (requested sch url)) as [e|resp] eqn:Hg.
  { do 2 eexists; split; [done|]. by econstructor 2. }
  rewrite bind_lift. destruct (raise_for_status L resp) as [e|[]] eqn:Hr.
  { do 2 eexists; split; [done|]. by econstructor 3. }
  assert (fetched L url resp) as Hf by (by exists sch).
  fold (declared "text/html" resp) (declared "application/pdf" resp).
  destruct (declared "text/html" resp) eqn:Hd.
  - rewrite bind_lift.
    destruct (BeautifulSoup L (resp_text resp)) as [e|soup] eqn:Hb.
    { do 2 eexists; split; [done|]. by econstructor 4. }
    rewrite bind_lift.
    destruct (extract_tables L 0 _) as [e|tables] eqn:Ht.
    { do 2 eexists; split; [done|]. by econstructor 5. }
    do 2 eexists; split; [done|]. reflexivity.
  - destruct (declared "application/pdf" resp) eqn:Hd'.
    + rewrite bind_lift.
      destruct (pdf_page_texts L _) as [e|texts] eqn:Hp.
      { do 2 eexists; split; [done|]. by econstructor 6. }
      do 2 eexists; split; [done|]. reflexivity.
    + do 2 eexists; split; [done|]. reflexivity.
Qed.

(** C2.  [fetch_url_content] never raises to its caller.  For every
    address it returns a dictionary; that dictionary is tagged "success", or
    the [try] block raised some exception [e] (a bad address, a network
    error, a non-success status, a parse failure during classification) and
    the dictionary is exactly the failure result: status "error" with
    [str(e)] as its message.  Conversely each such failure yields that
    failure result. *)
Theorem fetch_url_content_never_raises L url w :
  (exists d w',
     fetch_url_content L url w = (inr d, w')
     /\ (d !! py "status" = Some success
         \/ exists e, fetch_failure L url e /\ d = error_result e))
  /\ (forall e, fetch_failure L url e ->
        exists w',
          fetch_url_content L url w = (inr (error_result e), w')
          /\ error_result e !! py "status" = Some (VStr (py "error"))
          /\ error_result e !! py "message" = Some (VStr (exn_str e))).
Proof.
  split.
  - rewrite fetch_url_content_run.
    destruct (fetch_body_outcome L url w) as (r & w' & -> & Hr).
    destruct r as [e|d]; do 2 eexists; (split; [reflexivity|]); eauto.
  - intros e He. rewrite fetch_url_content_run.
    destruct (fetch_body_raises L url w e He) as [w' ->]. eauto.
Qed.

(** A 404 answer: the status check raises and the caller gets the failure
    result carrying the error's text. *)
Lemma fetch_url_content_never_raises_witness :
  exists w',
    fetch_url_content Ref.lib (py "example.com/missing") w0
    = (inr (error_result Ref.HTTPError), w').
Proof.
  destruct (proj2 (fetch_url_content_never_raises
                     Ref.lib (py "example.com/missing") w0) Ref.HTTPError)
    as (w' & Hrun & _).
  - by eapply (fail_status _ _ []).
  - by exists w'.
Defined.

(** ** The address requested *)


















Example fetch_keeps_given_scheme :
  out (fetch_url_content Ref.lib (py "http://example.com/notes.txt") w0).2
  = [HttpGet (py "http://example.com/notes.txt")].
Proof. reflexivity. Qed.

(** ** Tables and text of a markup response *)

Lemma Node_nested_ind (P : Node -> Prop) :
  (forall s, P (NText s)) ->
  (forall nm kids, Forall P kids -> P (NElem nm kids)) ->
  forall n, P n.
Proof.
  intros Htext Helem. fix IH 1. intros [s|nm kids]; [apply Htext|].
  apply Helem. induction kids as [|k kids IHkids]; constructor; [apply IH|done].
Qed.

Lemma matching_count nm n : length (matching [nm] n) = count_elems nm n.
Proof.
  induction n as [s|nm' kids IH] using Node_nested_ind; [done|].
  simpl. rewrite length_app. f_equal.
  - rewrite (bool_decide_ext (nm' ∈ [nm]) (nm' = nm))
      by apply list_elem_of_singleton.
    by case_bool_decide.
  - induction IH as [|k kids Hk _ IHkids]; [done|].
    by rewrite length_app, Hk, IHkids.
Qed.

(** [find_all('table')] returns every table element of the page. *)
Lemma find_all_count nm soup :
  length (find_all [nm] soup) = count_in_soup nm soup.
Proof.
  unfold find_all, count_in_soup.
  induction soup as [|n soup IH]; [done|].
  simpl. by rewrite length_app, matching_count, IH.
Qed.

Lemma decomposed_strings names n :
  flat_map strings_of (decomposed names n) = visible_strings names n.
Proof.
  induction n as [s|nm kids IH] using Node_nested_ind; [done|].
  simpl. case_bool_decide; [done|].
  simpl. rewrite app_nil_r.
  induction IH as [|k kids Hk _ IHkids]; [done|].
  rewrite <- Hk, <- IHkids. clear.
  generalize (decomposed names k). intros l.
  induction l as [|x l IHl]; [done|].
  simpl. by rewrite IHl, (assoc (++)).
Qed.

(** The text returned for a page is its visible text: nothing below a
    script or style element survives the [decompose] loop. *)
Lemma get_text_strip_visible soup :
  get_text_strip (decompose_all ["script"; "style"] soup) = visible_text soup.
Proof.
  unfold get_text_strip, visible_text, decompose_all. do 3 f_equal.
  induction soup as [|n soup IH]; [done|].
  simpl. by rewrite flat_map_app, IH, decomposed_strings.
Qed.

Lemma extract_tables_all L tables i :
  Forall (fun t => is_Some (first_frame L t)) tables ->
  exists entries,
    extract_tables L i tables = inr entries
    /\ length entries = length tables
    /\ forall j t, tables !! j = Some t ->
         exists f, first_frame L t = Some f
                   /\ entries !! j = Some (table_entry (i + j) f).
Proof.
  intros Hall. revert i.
  induction Hall as [|t tables [f Hf] _ IH]; intros i.
  { exists []. by repeat split. }
  destruct (IH (S i)) as (entries & Hrun & Hlen & Hent).
  exists (table_entry i f :: entries). simpl.
  pose proof Hf as Hf'. unfold first_frame in Hf.
  destruct (pd_read_html L (tag_str L t)) as [e|[|f' fs]]; try done.
  injection Hf as ->. simpl. rewrite Hrun. simpl.
  split; [done|]. split; [by rewrite Hlen|].
  intros [|j] t' Ht'; simpl in *.
  - injection Ht' as <-. exists f. by rewrite Nat.add_0_r.
  - destruct (Hent j t' Ht') as (f0 & Hf0 & He0). exists f0.
    by rewrite Nat.add_succ_r.
Qed.

Lemma extract_tables_some_fail L tables i :
  Exists (fun t => first_frame L t = None) tables ->
  raised (extract_tables L i tables).
Proof.
  intros Hex. revert i.
  induction Hex as [t tables Hf|t tables _ IH]; intros i; simpl.
  - unfold first_frame in Hf.
    destruct (pd_read_html L (tag_str L t)) as [e|[|f fs]]; try done;
      by eexists.
  - destruct (pd_read_html L (tag_str L t)) as [e|[|f fs]];
      try by eexists.
    simpl. destruct (IH (S i)) as [e ->]. by eexists.
Qed.

Lemma fetch_markup_run L url w resp soup :
  fetched L url resp -> declared "text/html" resp = true ->
  BeautifulSoup L (resp_text resp) = inr soup ->
  exists w',
    fetch_url_body L url w =
    (match extract_tables L 0 (find_all ["table"] soup) with
     | inl e => inl e
     | inr tables =>
         inr (dict [(py "type", VStr (py "html"));
                    (py "tables", VList tables);
                    (py "text", VStr (get_text_strip
                                      (decompose_all ["script"; "style"] soup)));
                    (py "status", VStr (py "success"))])
     end, w').
Proof.
  intros (sch & Hs & Hg & Hr) Hd Hb. unfold fetch_url_body.
  rewrite bind_lift, Hs. cbv zeta. fold (requested sch url).
  rewrite bind_emit, bind_lift, Hg, bind_lift, Hr.
  fold (declared "text/html" resp). rewrite Hd, bind_lift, Hb, bind_lift.
  destruct (extract_tables L 0 _); eauto.
Qed.

Lemma fetched_broken : fetched Ref.lib (py "example.com/broken") broken_response.
Proof. exists []. by vm_compute. Qed.

(** A markup response with one table element for which no frame comes
    back: the page holds a table without cells, [pd.read_html] raises on it,
    and the fetch returns a failure result with no table entries at all. *)
Lemma fetch_broken_page_tables :
  fetched Ref.lib (py "example.com/broken") broken_response
  /\ declared "text/html" broken_response = true
  /\ BeautifulSoup Ref.lib (resp_text broken_response) = inr Ref.broken_page
  /\ count_in_soup "table" Ref.broken_page = 1
  /\ ~ returns_all_tables Ref.lib (py "example.com/broken") w0 Ref.broken_page.
Proof.
  split; [apply fetched_broken|]. repeat split; try by vm_compute.
  intros (d & entries & Hrun & Htab & _).
  vm_compute in Hrun. injection Hrun as <-. by vm_compute in Htab.
Qed.

(** C3, amended.  For a response declared as markup whose body holds N
    table elements, each of which [pd.read_html] turns into at least one
    frame, [fetch_url_content] returns a success result with exactly N
    entries, the i-th tagged "table_i" and built from the i-th table in
    document order, together with the visible text of the whole page
    (script and style elements stripped).  When some table element yields
    no frame, the result is a failure result instead. *)
Theorem fetch_markup_tables L url w resp soup :
  fetched L url resp -> declared "text/html" resp = true ->
  BeautifulSoup L (resp_text resp) = inr soup ->
  (Forall (fun t => is_Some (first_frame L t)) (find_all ["table"] soup) ->
   exists d entries,
     (fetch_url_content L url w).1 = inr d
     /\ d !! py "status" = Some success
     /\ d !! py "tables" = Some (VList entries)
     /\ length entries = count_in_soup "table" soup
     /\ (forall i t, find_all ["table"] soup !! i = Some t ->
          exists f, first_frame L t = Some f
                    /\ entries !! i = Some (table_entry i f))
     /\ d !! py "text" = Some (VStr (visible_text soup)))
  /\ (Exists (fun t => first_frame L t = None) (find_all ["table"] soup) ->
      exists e, (fetch_url_content L url w).1 = inr (error_result e)).
Proof.
  intros Hf Hd Hb.
  destruct (fetch_markup_run L url w resp soup Hf Hd Hb) as [w' Hrun].
  rewrite fetch_url_content_run, Hrun. split.
  - intros Hall.
    destruct (extract_tables_all L _ 0 Hall) as (entries & -> & Hlen & Hent).
    eexists _, entries. split; [reflexivity|].
    split; [reflexivity|]. split; [reflexivity|].
    split; [by rewrite Hlen, find_all_count|].
    split; [exact Hent|]. rewrite <- get_text_strip_visible. reflexivity.
  - intros Hex.
    destruct (extract_tables_some_fail L _ 0 Hex) as [e ->]. by exists e.
Qed.

(** A page with two tables, a style and a script element. *)
Lemma fetch_markup_tables_witness :
  exists d,
    (fetch_url_content Ref.lib (py "example.com/data") w0).1 = inr d
    /\ d !! py "tables"
       = Some (VList [table_entry 0 Ref.sales_frame;
                      table_entry 1 Ref.stock_frame])
    /\ d !! py "text"
       = Some (VStr (py "ReportQuarterly figuresregionsales110230item7")).
Proof.
  destruct (proj1 (fetch_markup_tables Ref.lib (py "example.com/data") w0
                     report_response Ref.report_page
                     ltac:(exists []; by vm_compute) eq_refl eq_refl))
    as (d & entries & Hrun & _ & Htab & _ & _ & Htext).
  - repeat constructor; by eexists.
  - exists d. split; [exact Hrun|].
    vm_compute in Hrun. injection Hrun as <-. split; by vm_compute.
Defined.

(** ** Charts *)

Lemma create_chart_effect L spec kind :
  effect eq is_pyplot (create_chart L spec kind).
Proof. unfold create_chart. effect_auto. Qed.

(** Whatever the spec, a library that refuses the style name makes
    [create_chart] raise before anything else happens. *)
Lemma create_chart_style_rejected L spec kind w e :
  plt_style_use L (py "seaborn-white grid") = inl e ->
  create_chart L spec kind w = (inl e, w).
Proof. intros He. unfold create_chart. by rewrite bind_lift, He. Qed.

(** What the frame constructor raises on lists of different lengths. *)
Lemma ref_pandas_checks_lengths : pandas_checks_lengths Ref.lib.
Proof.
  intros xs ys Hlen. simpl. unfold Ref.pd_DataFrame_xy.
  rewrite bool_decide_eq_false_2 by done. by eexists.
Qed.

(** The style name of line 139 is not in the style library. *)
Lemma ref_style_rejected :
  style_rejected Ref.lib (Ref.StyleError (py "seaborn-white grid")).
Proof. by vm_compute. Qed.

(** Two labels and one value: what [create_chart] raises is an [OSError] of
    matplotlib, not a validation error. *)
Lemma chart_mismatch_is_library_error :
  create_chart Ref.lib Ref.ragged_spec "bar" w0
  = (inl (Ref.StyleError (py "seaborn-white grid")), w0)
  /\ exn_class (Ref.StyleError (py "seaborn-white grid")) = "OSError"
  /\ exn_class (Ref.StyleError (py "seaborn-white grid")) <> "ValidationError".
Proof. split; [by vm_compute|]. split; [reflexivity|discriminate]. Qed.

(** C4, amended.  A chart spec whose label list and value list differ in
    length makes [create_chart] raise, for the bar and the line chart
    alike, and the world is as before the call: nothing was handed to
    [st.pyplot].  The script has no validation step of its own: the
    exception is that of a library call made before any drawing, the frame
    constructor of line 140 on columns of different lengths unless
    [plt.style.use] has raised before it. *)
Theorem create_chart_mismatch L spec kind xs ys w :
  pandas_checks_lengths L ->
  py_getitem spec (py "columns") = ok (VList xs) ->
  py_getitem spec (py "data") = ok (VList ys) ->
  length xs <> length ys ->
  exists e,
    create_chart L spec kind w = (inl e, w)
    /\ (plt_style_use L (py "seaborn-white grid") = inl e
        \/ pd_DataFrame_xy L (VList xs) (VList ys) = inl e).
Proof.
  intros Hpd Hx Hy Hlen. unfold create_chart.
  rewrite bind_lift.
  destruct (plt_style_use L _) as [e|[]] eqn:Hstyle; [by eauto|].
  rewrite bind_lift, Hx. unfold ok. rewrite bind_lift, Hy. unfold ok.
  rewrite bind_lift. destruct (Hpd xs ys Hlen) as [e He]. rewrite He.
  by eauto.
Qed.

(** Two labels, one value, as a line chart. *)
Lemma create_chart_mismatch_witness :
  exists e, create_chart Ref.lib Ref.ragged_spec "line" w0 = (inl e, w0).
Proof.
  destruct (create_chart_mismatch Ref.lib Ref.ragged_spec "line"
              [VStr (py "north"); VStr (py "south")] [VNum 10] w0
              ref_pandas_checks_lengths eq_refl eq_refl)
    as (e & Hrun & _).
  - simpl. lia.
  - by exists e.
Defined.

(** ** The renderer *)

Lemma sections_of_none evs : Forall no_section evs -> sections_of evs = [].
Proof.
  induction 1 as [|ev evs Hev _ IH]; [done|].
  unfold sections_of in *. simpl. by rewrite Hev.
Qed.

Lemma sections_of_app a b :
  sections_of (a ++ b) = sections_of a ++ sections_of b.
Proof. apply omap_app. Qed.

Lemma typing_loop_effect chunks full :
  effect eq no_section (typing_loop full chunks).
Proof.
  revert full. induction chunks as [|c chunks IH]; intros full; simpl.
  - effect_auto.
  - effect_auto. apply IH.
Qed.

Lemma create_chart_no_section L spec kind :
  effect eq no_section (create_chart L spec kind).
Proof.
  eapply effect_weaken; [| |apply create_chart_effect]; [done|].
  by intros [].
Qed.

Lemma renders_intro s (m : Py unit) :
  effect eq no_section m ->
  renders s (emit (StExpander (part_label s) true) ;; m).
Proof.
  intros Hm w. rewrite bind_emit.
  destruct (Hm (mkWorld (session w) (out w ++ [StExpander (part_label s) true])))
    as [_ (evs & Ho & Hp)].
  exists evs. rewrite Ho. simpl. by rewrite <- (assoc (++)).
Qed.

Lemma render_answer_renders r : renders Narrative (render_answer r).
Proof. apply renders_intro. effect_auto. apply typing_loop_effect. Qed.

Lemma render_table_renders L r : renders Table (render_table L r).
Proof. apply renders_intro. effect_auto. Qed.

Lemma render_bar_renders L r : renders Bar (render_bar L r).
Proof. apply renders_intro. effect_auto. apply create_chart_no_section. Qed.

Lemma render_line_renders L r : renders Line (render_line L r).
Proof. apply renders_intro. effect_auto. apply create_chart_no_section. Qed.

Lemma guarded_sections s r (m : Py unit) w :
  renders s m ->
  exists evs,
    out ((if has_key (part_key s) r then m else mret tt) w).2 = out w ++ evs
    /\ sections_of evs = step_sections s r.
Proof.
  intros Hm. unfold step_sections. destruct (has_key _ r).
  - destruct (Hm w) as (evs & -> & Hp). eexists; split; [done|].
    unfold sections_of. simpl. f_equal. by apply sections_of_none.
  - exists []. by rewrite app_nil_r.
Qed.

Lemma present_sections_steps r :
  present_sections r
  = step_sections Narrative r ++ step_sections Table r
    ++ step_sections Bar r ++ step_sections Line r.
Proof.
  unfold present_sections, step_sections. simpl.
  rewrite !filter_cons, filter_nil. simpl.
  repeat case_decide; repeat (destruct (has_key _ r)); simpl; congruence.
Qed.

Lemma opens_guarded s r (m : Py unit) :
  renders s m ->
  opens (step_sections s r) (if has_key (part_key s) r then m else mret tt).
Proof.
  intros Hm w. destruct (guarded_sections s r m w Hm) as (evs & Ho & Hs).
  exists evs. rewrite Hs. by repeat split.
Qed.

Lemma opens_seq ss1 ss2 (m1 m2 : Py unit) :
  opens ss1 m1 -> opens ss2 m2 -> opens (ss1 ++ ss2) (m1 ;; m2).
Proof.
  intros H1 H2 w. rewrite bind_run.
  destruct (H1 w) as (evs1 & Ho1 & Hp1 & He1).
  destruct (m1 w) as [[e|[]] w1]; simpl in *.
  - exists evs1. split; [done|]. split; [|done].
    by apply prefix_app_r.
  - destruct (H2 w1) as (evs2 & Ho2 & Hp2 & He2).
    exists (evs1 ++ evs2). rewrite Ho2, Ho1, (assoc (++)).
    split; [done|]. rewrite sections_of_app, He1 by done.
    split; [by apply prefix_app|].
    intros Hr. by rewrite He2.
Qed.

Lemma display_result_opens L r :
  opens (present_sections r) (display_result L r).
Proof.
  rewrite present_sections_steps. unfold display_result.
  apply opens_seq; [apply opens_guarded, render_answer_renders|].
  apply opens_seq; [apply opens_guarded, render_table_renders|].
  apply opens_seq; [apply opens_guarded, render_bar_renders|].
  apply opens_guarded, render_line_renders.
Qed.

Lemma part_label_inj s s' : part_label s = part_label s' -> s = s'.
Proof. destruct s, s'; intros H; try done; vm_compute in H; discriminate. Qed.

Lemma elem_of_present_sections s r :
  part_label s ∈ present_sections r -> has_key (part_key s) r = true.
Proof.
  unfold present_sections. intros (s' & Hl & Hin)%list_elem_of_fmap.
  apply part_label_inj in Hl as <-.
  by apply list_elem_of_filter in Hin as [? _].
Qed.

(** ** Footprints of the page *)

Lemma text_preview_effect label text :
  effect eq any_event (text_preview label text).
Proof. unfold text_preview. effect_auto. Qed.

Lemma display_result_effect L r : effect eq any_event (display_result L r).
Proof.
  unfold display_result, render_answer, render_table, render_bar, render_line.
  effect_auto;
    try (eapply effect_eq_any; [apply _|apply typing_loop_effect]);
    try (eapply effect_eq_any; [apply _|apply create_chart_effect]).
Qed.

Lemma analysis_dispatch_effect L q :
  effect eq any_event (analysis_dispatch L q).
Proof. unfold analysis_dispatch. effect_auto. Qed.

(** The handler of the button never writes the session. *)
Lemma analyze_button_handler_effect L im q :
  effect eq any_event (analyze_button_handler L im q).
Proof.
  unfold analyze_button_handler. effect_auto.
  - apply analysis_dispatch_effect.
  - apply display_result_effect.
Qed.

Lemma query_section_effect L wd : effect eq any_event (query_section L wd).
Proof.
  unfold query_section. effect_auto. apply analyze_button_handler_effect.
Qed.

Lemma input_section_effect wd :
  effect same_content any_event (input_section wd).
Proof. unfold input_section. effect_auto. Qed.

(** A file ingestion writes the frame (spreadsheet, CSV) or the text (Word,
    HTML, PDF), according to the declared type, and not the other slot. *)
Lemma ingest_file_frame_or_text L wd file :
  effect same_text any_event (ingest_file L wd file)
  \/ effect same_df any_event (ingest_file L wd file).
Proof.
  unfold ingest_file, process_word_file, process_html_file, process_pdf_file.
  destruct (w_file_type wd); [left|left|right|right|right]; effect_auto;
    try (eapply effect_eq_any; [apply _|apply text_preview_effect]).
Qed.

Lemma ingest_file_one_slot L wd file : touches one_slot (ingest_file L wd file).
Proof.
  destruct (ingest_file_frame_or_text L wd file) as [H|H].
  - eapply touches_weaken, effect_touches, H. by left.
  - eapply touches_weaken, effect_touches, H. by right.
Qed.

(** A URL ingestion writes the frame (markup with tables) or the text (any
    other success), and not the other slot. *)
Lemma ingest_url_one_slot L url : touches one_slot (ingest_url L url).
Proof.
  unfold ingest_url.
  apply touches_bind_eq; [apply _|touches_eq|intros _].
  apply touches_bind_eq; [apply _|touches_eq|intros _].
  apply touches_bind_eq; [apply _| |intros fetched].
  { eapply effect_touches, fetch_url_content_effect. }
  cbv zeta.
  apply touches_bind_eq; [apply _|touches_eq|intros status].
  destruct (py_eq_str status _); [|touches_refl].
  apply touches_bind_eq; [apply _|touches_eq|intros type].
  destruct (py_eq_str type _).
  - apply (touches_weaken same_text); [by left|].
    apply (effect_touches _ any_event). effect_auto.
    eapply effect_eq_any; [apply _|apply text_preview_effect].
  - apply (touches_weaken same_df); [by right|].
    apply (effect_touches _ any_event). effect_auto.
    eapply effect_eq_any; [apply _|apply text_preview_effect].
Qed.

Lemma data_preview_one_slot L wd : touches one_slot (data_preview L wd).
Proof.
  unfold data_preview.
  apply touches_bind_eq; [apply _|touches_eq|intros s].
  destruct (w_input_method wd).
  - destruct (uploaded_file s); [apply ingest_file_one_slot|touches_refl].
  - destruct (input_url s) as [url|]; [|touches_refl].
    destruct (truthy_str url); [apply ingest_url_one_slot|touches_refl].
Qed.

Lemma page_one_slot L wd : touches one_slot (page L wd).
Proof.
  unfold page. intros w. rewrite bind_run.
  destruct (input_section_effect wd w) as [[Hd Ht] _].
  destruct (input_section wd w) as [[e|[]] w1]; simpl in *; [by left|].
  assert (touches one_slot (data_preview L wd ;; query_section L wd)) as H.
  { apply touches_eq_bind; [apply _|apply data_preview_one_slot|intros _].
    eapply effect_touches, query_section_effect. }
  destruct (H w1) as [H1|H1]; [left|right]; congruence.
Qed.

(** ** Sessions *)

(** A page with tables fetched by URL stores the frame of its first table
    and no text; a plain-text resource stores its body as the text. *)
Example url_ingestion_slots :
  let url u := mkWidgets InputURL Excel None 0 (Some (py u)) empty_str false in
  holds_frame (run_page Ref.lib (url "example.com/data") initial_session)
  /\ text_content (run_page Ref.lib (url "example.com/data") initial_session)
     = VNone
  /\ df (run_page Ref.lib (url "http://example.com/notes.txt") initial_session)
     = None
  /\ text_content
       (run_page Ref.lib (url "http://example.com/notes.txt") initial_session)
     = VStr (py "plain notes").
Proof. split; [by eexists; vm_compute|]. repeat split; by vm_compute. Qed.

(** A CSV upload followed by a Word upload: the frame of the first and
    the text of the second are both in the session. *)
Lemma session_holds_both :
  reachable after_csv_then_word
  /\ df after_csv_then_word = Some Ref.sales_frame
  /\ text_content after_csv_then_word = VStr notes
  /\ holds_frame after_csv_then_word /\ holds_text after_csv_then_word.
Proof.
  split; [repeat constructor|].
  split; [by vm_compute|]. split; [by vm_compute|].
  split; [by exists Ref.sales_frame; vm_compute | by vm_compute].
Qed.

(** C7, amended.  One run of the page writes at most one of the two
    content slots and leaves the other exactly as it was (no ingestion
    clears the other slot); so after the first run of a session at most one
    canonical content object is held. *)
Theorem page_writes_one_slot L wd s :
  (text_content (run_page L wd s) = text_content s
   \/ df (run_page L wd s) = df s)
  /\ ~ (holds_frame (run_page L wd initial_session)
        /\ holds_text (run_page L wd initial_session)).
Proof.
  split; [apply (page_one_slot L wd (mkWorld s []))|].
  intros [Hf Ht].
  destruct (page_one_slot L wd (mkWorld initial_session [])) as [H|H];
    fold (run_page L wd initial_session) in H; simpl in H.
  - unfold holds_text in Ht. by rewrite H in Ht.
  - unfold holds_frame in Hf. rewrite H in Hf. by destruct Hf.
Qed.

(** ** The analysis button *)

Lemma truthy_str_nonempty q : q <> [] -> truthy_str q = true.
Proof. by destruct q. Qed.

(** Once both guards pass, the handler is the spinner followed by the
    guarded dispatch-and-render. *)
Lemma handler_passes_guards L im q w :
  source_missing im (session w) = false -> q <> [] ->
  analyze_button_handler L im q w
  = try_except (result ← analysis_dispatch L q; display_result L result)
      report (log w [spinner]).
Proof.
  intros Hsrc Hq. unfold analyze_button_handler.
  rewrite bind_get_session, Hsrc, (truthy_str_nonempty q Hq). reflexivity.
Qed.

(** C8.  When the agent raises [e], the handler of the button returns
    normally, the session is the one it started with, and what it added to
    the log is the spinner, the agent call and one error message carrying
    [str(e)]. *)
Theorem agent_error_reported L im q w frame e :
  source_missing im (session w) = false -> q <> [] ->
  df (session w) = Some frame ->
  dataframe_agent L frame q = inl e ->
  analyze_button_handler L im q w
  = (inr tt,
     mkWorld (session w)
       (out w ++ [spinner; AgentCall frame q;
                  StError (py "分析过程中发生错误: " ++ exn_str e)])).
Proof.
  intros Hsrc Hq Hdf Hagent. rewrite handler_passes_guards by done.
  rewrite try_except_run, bind_run. unfold analysis_dispatch.
  rewrite bind_get_session, session_log, Hdf.
  rewrite bind_emit, lift_run, Hagent. simpl.
  unfold report, emit. simpl. by rewrite <- !(assoc (++)).
Qed.

(** The agent fails on the query "crash". *)
Lemma agent_error_reported_witness :
  analyze_button_handler Ref.lib UploadFile (py "crash") crash_world
  = (inr tt,
     mkWorld (session crash_world)
       [spinner; AgentCall Ref.sales_frame (py "crash");
        StError (py "分析过程中发生错误: " ++ py "model unavailable")]).
Proof.
  apply (agent_error_reported Ref.lib UploadFile (py "crash") crash_world
           Ref.sales_frame (mkExn "RuntimeError" (py "model unavailable")));
    [reflexivity | discriminate | reflexivity | reflexivity].
Defined.

Lemma analysis_blocked_with_warning L im q w :
  source_missing im (session w) = true \/ q = [] ->
  exists msg,
    analyze_button_handler L im q w = (inr tt, log w [StWarning msg])
    /\ (msg = py "请先提供数据源" \/ msg = py "请输入分析需求").
Proof.
  intros Hblock. unfold analyze_button_handler. rewrite bind_get_session.
  destruct (source_missing im (session w)) eqn:Hsrc.
  - exists (py "请先提供数据源"). split; [reflexivity | by left].
  - destruct Hblock as [Hs|Hq]; [done|]. subst q.
    exists (py "请输入分析需求"). split; [reflexivity | by right].
Qed.

(** With no source and no query the page still draws the button enabled. *)
Lemma button_enabled_without_source :
  source_missing (w_input_method blank) (session (page Ref.lib blank w0).2) = true
  /\ w_query blank = []
  /\ buttons (out (page Ref.lib blank w0).2) = [(py "开始分析", false)].
Proof. by vm_compute. Qed.

(** C9, amended.  The button is always drawn enabled: in every state the
    query section draws the query box (disabled exactly while neither a
    frame nor a text is stored) and then the button with [disabled] false.
    The gate is in the handler: when the content source is missing or the
    query is empty, a click returns normally, leaves the session alone and
    adds one warning to the log and nothing else, so no agent call, no text
    echo and no rendering take place. *)
Theorem analysis_gate L wd w :
  (exists rest,
     out (query_section L wd w).2
     = out w ++ query_widgets wd (session w) ++ rest)
  /\ (source_missing (w_input_method wd) (session w) = true \/ w_query wd = [] ->
      exists msg,
        analyze_button_handler L (w_input_method wd) (w_query wd) w
          = (inr tt, log w [StWarning msg])
        /\ (msg = py "请先提供数据源" \/ msg = py "请输入分析需求")).
Proof.
  split; [|apply analysis_blocked_with_warning].
  unfold query_section. rewrite bind_get_session, !bind_emit. simpl session.
  set (w1 := mkWorld _ _).
  assert (out w1 = out w ++ query_widgets wd (session w)) as Hw1.
  { unfold w1, query_widgets. simpl. by rewrite <- !(assoc (++)). }
  destruct (w_analyze_button wd).
  - destruct (analyze_button_handler_effect L (w_input_method wd) (w_query wd) w1)
      as [_ (evs & Ho & _)].
    exists evs. by rewrite Ho, Hw1, (assoc (++)).
  - exists []. by rewrite app_nil_r, <- Hw1.
Qed.

(** A click with nothing uploaded. *)
Lemma analysis_gate_witness :
  exists msg,
    analyze_button_handler Ref.lib UploadFile (empty_str) w0
    = (inr tt, log w0 [StWarning msg]).
Proof.
  destruct (proj2 (analysis_gate Ref.lib blank w0) (or_introl eq_refl))
    as (msg & Hrun & _).
  by exists msg.
Defined.

Lemma analysis_dispatch_frame L q w frame :
  df (session w) = Some frame ->
  analysis_dispatch L q w
  = (dataframe_agent L frame q, log w [AgentCall frame q]).
Proof.
  intros Hdf. unfold analysis_dispatch.
  by rewrite bind_get_session, Hdf, bind_emit, lift_run.
Qed.




(** After a Word upload the echo of a query starts with the label, so it
    is not the bare prefix of the stored text. *)
Lemma text_echo_is_labelled :
  df (session notes_world) = None
  /\ text_content (session notes_world) = VStr notes
  /\ exists d,
       analysis_dispatch Ref.lib (py "summarise") notes_world
         = (inr d, notes_world)
       /\ d !! py "answer" = Some (VStr (echo_label ++ notes))
       /\ d !! py "answer" <> Some (VStr (take 3000 notes)).
Proof.
  split; [by vm_compute|]. split; [by vm_compute|].
  exists (echo_result notes). split; [by vm_compute|].
  split; [by vm_compute|]. by vm_compute.
Qed.

(** C1, amended.  In a session that holds a text and no frame, a
    click that passes the two guards (source provided, query non-empty)
    calls no agent: the result is the dictionary whose only key, answer,
    holds the fixed label followed by the first 3000 characters of the
    stored text, and that result is what is rendered. *)
Theorem text_echo_result L im q w t :
  source_missing im (session w) = false -> q <> [] ->
  df (session w) = None -> text_content (session w) = VStr t ->
  analysis_dispatch L q (log w [spinner])
    = (inr (echo_result t), log w [spinner])
  /\ analyze_button_handler L im q w
     = try_except (display_result L (echo_result t)) report (log w [spinner]).
Proof.
  intros Hsrc Hq Hdf Htext.
  assert (analysis_dispatch L q (log w [spinner])
          = (inr (echo_result t), log w [spinner])) as Hd.
  { unfold analysis_dispatch.
    rewrite bind_get_session, session_log, Hdf, Htext. reflexivity. }
  split; [exact Hd|].
  rewrite handler_passes_guards by done.
  rewrite !try_except_run, bind_run, Hd. reflexivity.
Qed.

(** The text of an uploaded Word document. *)
Lemma text_echo_result_witness :
  analysis_dispatch Ref.lib (py "summarise") (log notes_world [spinner])
  = (inr (echo_result notes), log notes_world [spinner]).
Proof.
  apply (text_echo_result Ref.lib UploadFile (py "summarise") notes_world notes);
    [reflexivity | discriminate | reflexivity | reflexivity].
Defined.

(** * Further properties of the script *)

(** ** Reference responses *)

Lemma fetched_notes :
  fetched Ref.lib (py "http://example.com/notes.txt") notes_response.
Proof. exists (py "http"). by vm_compute. Qed.

Lemma fetched_serving resp pages url sch :
  Ref.urlparse_scheme url = inr sch -> fetched (serving resp pages) url resp.
Proof. intros Hs. by exists sch. Qed.

(** ** The fetch: requests and result shapes *)

Lemma fetch_after_status L url w resp :
  fetched L url resp ->
  exists w',
    session w' = session w /\
    fetch_url_body L url w =
    (if declared "text/html" resp then
       soup ← BeautifulSoup L (resp_text resp);
       tables ← extract_tables L 0 (find_all ["table"] soup);
       mret (html_result tables
               (get_text_strip (decompose_all ["script"; "style"] soup)))
     else if declared "application/pdf" resp then
       texts ← pdf_page_texts L (resp_content resp);
       mret (pdf_result (concat texts))
     else mret (unknown_result (resp_text resp)), w').
Proof.
  intros (sch & Hs & Hg & Hr). unfold fetch_url_body.
  rewrite bind_lift, Hs. cbv zeta. fold (requested sch url).
  rewrite bind_emit, bind_lift, Hg, bind_lift, Hr.
  fold (declared "text/html" resp) (declared "application/pdf" resp).
  exists (log w [HttpGet (requested sch url)]).
  split; [reflexivity|]. change (mkWorld _ _) with (log w [HttpGet (requested sch url)]).
  destruct (declared "text/html" resp).
  - rewrite bind_lift. destruct (BeautifulSoup L _) as [e|soup]; [done|].
    simpl. rewrite bind_lift. by destruct (extract_tables L 0 _).
  - destruct (declared "application/pdf" resp); [|done].
    rewrite bind_lift. by destruct (pdf_page_texts L _).
Qed.

Lemma py_in_str_nil needle : needle <> [] -> py_in_str needle [] = false.
Proof. by destruct needle. Qed.

(** X1.  [fetch_url_content] leaves the session state untouched and issues
    at most one HTTP request: its log is the log before the call, or that
    log followed by a single GET.  When [urlparse] itself raises, no
    request is made at all and the failure result carries that exception. *)
Theorem fetch_single_get L url w :
  session (fetch_url_content L url w).2 = session w
  /\ (out (fetch_url_content L url w).2 = out w
      \/ exists u, out (fetch_url_content L url w).2 = out w ++ [HttpGet u])
  /\ (forall e, urlparse_scheme L url = inl e ->
        fetch_url_content L url w = (inr (error_result e), w)).
Proof.
  split; [symmetry; apply (fetch_url_content_effect L url w)|].
  split.
  - rewrite fetch_url_content_run.
    destruct (urlparse_scheme L url) as [e|sch] eqn:Hs.
    + left. unfold fetch_url_body. by rewrite bind_lift, Hs.
    + right. destruct (fetch_url_body_run L url w sch Hs) as [r ->].
      exists (requested sch url). by destruct r.
  - intros e He. rewrite fetch_url_content_run. unfold fetch_url_body.
    by rewrite bind_lift, He.
Qed.

(** X3.  A fetched response that has no content-type header, or whose
    header names neither "text/html" nor "application/pdf", is returned as
    the unknown result whose content is the response body as text,
    unparsed. *)
Theorem fetch_unknown_content L url w resp :
  fetched L url resp ->
  content_type_header resp = None
  \/ (declared "text/html" resp = false
      /\ declared "application/pdf" resp = false) ->
  (fetch_url_content L url w).1 = inr (unknown_result (resp_text resp)).
Proof.
  intros Hf Hct.
  assert (declared "text/html" resp = false
          /\ declared "application/pdf" resp = false) as [Hh Hp].
  { destruct Hct as [Hn|]; [|done]. unfold declared. rewrite Hn. done. }
  destruct (fetch_after_status L url w resp Hf) as (w' & _ & Hrun).
  rewrite fetch_url_content_run, Hrun, Hh, Hp. reflexivity.
Qed.

Lemma fetch_unknown_content_witness :
  (fetch_url_content Ref.lib (py "http://example.com/notes.txt") w0).1
  = inr (unknown_result (py "plain notes")).
Proof.
  apply (fetch_unknown_content Ref.lib _ w0 notes_response fetched_notes).
  right. by vm_compute.
Defined.

(** X4.  A fetched response declared as "application/pdf" (and not as
    markup) is read with the PDF reader from the response bytes: the
    result is the pdf result whose text is the concatenation of the page
    texts in page order, or the failure result of the exception the reader
    raised. *)
Theorem fetch_pdf_content L url w resp :
  fetched L url resp ->
  declared "text/html" resp = false ->
  declared "application/pdf" resp = true ->
  (fetch_url_content L url w).1 =
  match pdf_page_texts L (resp_content resp) with
  | inl e => inr (error_result e)
  | inr texts => inr (pdf_result (concat texts))
  end.
Proof.
  intros Hf Hh Hp.
  destruct (fetch_after_status L url w resp Hf) as (w' & _ & Hrun).
  rewrite fetch_url_content_run, Hrun, Hh, Hp.
  by destruct (pdf_page_texts L _).
Qed.

Lemma fetch_pdf_content_witness :
  (fetch_url_content (serving scanned_pdf [py "page one"; py "page two"])
     (py "example.com/report.pdf") w0).1
  = inr (pdf_result (py "page onepage two")).
Proof.
  exact (fetch_pdf_content (serving scanned_pdf [py "page one"; py "page two"])
           (py "example.com/report.pdf") w0 scanned_pdf
           (fetched_serving _ _ (py "example.com/report.pdf") [] eq_refl) eq_refl eq_refl).
Defined.

Lemma fetch_shape_run L url w :
  exists d, (fetch_url_content L url w).1 = inr d /\ fetch_shape d.
Proof.
  rewrite fetch_url_content_run. unfold fetch_url_body. rewrite bind_lift.
  destruct (urlparse_scheme L url) as [e|sch];
    [exists (error_result e); split; [reflexivity|apply shape_error]|].
  cbv zeta. rewrite bind_emit, bind_lift.
  destruct (requests_get L _) as [e|resp];
    [exists (error_result e); split; [reflexivity|apply shape_error]|].
  rewrite bind_lift.
  destruct (raise_for_status L resp) as [e|[]];
    [exists (error_result e); split; [reflexivity|apply shape_error]|].
  destruct (py_in_str (py "text/html") _).
  - rewrite bind_lift.
    destruct (BeautifulSoup L _) as [e|soup];
      [exists (error_result e); split; [reflexivity|apply shape_error]|].
    rewrite bind_lift.
    destruct (extract_tables L 0 _) as [e|tables].
    + exists (error_result e); split; [reflexivity|apply shape_error].
    + eexists; split; [reflexivity|apply shape_html].
  - destruct (py_in_str (py "application/pdf") _).
    + rewrite bind_lift.
      destruct (pdf_page_texts L _) as [e|texts].
      * exists (error_result e); split; [reflexivity|apply shape_error].
      * eexists; split; [reflexivity|apply shape_pdf].
    + eexists; split; [reflexivity|apply shape_unknown].
Qed.

(** X2.  Whatever the libraries do, [fetch_url_content] returns a
    dictionary of one of exactly four shapes: the html result (type,
    tables, text, status), the pdf result (type, text, status), the
    unknown result (type, content, status) or the failure result (status,
    message). *)
Theorem fetch_result_shape L url w :
  exists d, (fetch_url_content L url w).1 = inr d /\ fetch_shape d.
Proof. apply fetch_shape_run. Qed.

(** ** Substrings, tokens and the typing effect *)

Lemma py_startswith_spec p s :
  py_startswith p s = true <-> exists r, s = p ++ r.
Proof.
  revert s. induction p as [|a p IH]; intros s; simpl.
  - split; [eauto|done].
  - destruct s as [|b s].
    { split; [done|]. by intros [r ?]. }
    rewrite andb_true_iff, N.eqb_eq, IH. split.
    + intros [-> [r ->]]. eauto.
    + intros [r [= -> ->]]. eauto.
Qed.

Lemma py_in_str_spec needle hay :
  py_in_str needle hay = true <-> exists a b, hay = a ++ needle ++ b.
Proof.
  induction hay as [|c hay IH]; simpl.
  - rewrite orb_false_r, py_startswith_spec. split.
    + intros [r Hr]. by exists [], r.
    + intros (a & b & Hab). symmetry in Hab.
      apply app_eq_nil in Hab as [-> Hab]. apply app_eq_nil in Hab as [-> ->].
      by exists [].
  - rewrite orb_true_iff, py_startswith_spec, IH. split.
    + intros [[r Hr]|(a & b & ->)].
      * by exists [], r.
      * by exists (c :: a), b.
    + intros ([|c' a] & b & Hab); simpl in Hab.
      * left. eauto.
      * right. injection Hab as -> ->. eauto.
Qed.

Lemma split_go_tokens cur s :
  Forall not_space cur ->
  Forall (fun t => t <> [] /\ Forall not_space t) (split_go cur s)
  /\ concat (split_go cur s) = cur ++ filter not_space s.
Proof.
  revert cur. induction s as [|c s IH]; intros cur Hcur; simpl.
  - rewrite app_nil_r. destruct cur; simpl; [done|].
    split; [|by rewrite app_nil_r]. constructor; [done|constructor].
  - destruct (py_isspace c) eqn:Hc.
    + destruct (IH [] ltac:(constructor)) as [IH1 IH2].
      rewrite filter_cons_False by (unfold not_space; congruence).
      destruct cur; simpl; [done|].
      split; [constructor; [done|done]|]. by rewrite IH2.
    + destruct (IH (cur ++ [c])) as [IH1 IH2].
      { apply Forall_app. split; [done|]. by repeat constructor. }
      rewrite filter_cons_True by done.
      split; [done|]. by rewrite IH2, <- (assoc (++)).
Qed.

Lemma py_split_tokens s :
  Forall (fun t => t <> [] /\ Forall not_space t) (py_split s)
  /\ concat (py_split s) = filter not_space s.
Proof. apply (split_go_tokens [] s). constructor. Qed.

Lemma filter_not_space_id t : Forall not_space t -> filter not_space t = t.
Proof.
  induction 1 as [|c t Hc _ IH]; [done|].
  by rewrite filter_cons_True, IH.
Qed.

Lemma typed_text_characters tokens :
  Forall (fun t => t <> [] /\ Forall not_space t) tokens ->
  filter not_space (typed_text tokens) = concat tokens.
Proof.
  unfold typed_text. induction 1 as [|t tokens [_ Ht] _ IH]; [done|].
  simpl. rewrite !filter_app, IH, (filter_not_space_id t Ht). 
  by rewrite <- (assoc (++)).
Qed.

Lemma typing_loop_run chunks shown w :
  typing_loop shown chunks w
  = (inr (shown ++ typed_text chunks), log w (typing_frames shown chunks)).
Proof.
  revert shown w. induction chunks as [|t chunks IH]; intros shown w.
  - unfold typed_text, log. cbn [typing_loop typing_frames concat map].
    rewrite !app_nil_r. by destruct w.
  - cbn [typing_loop typing_frames]. rewrite bind_emit, bind_emit, IH.
    unfold typed_text, log. cbn [concat map session out].
    rewrite <- !app_assoc. reflexivity.
Qed.

Lemma typing_frames_length shown tokens :
  length (typing_frames shown tokens) = 2 * length tokens.
Proof.
  revert shown. induction tokens as [|t tokens IH]; intros shown; [done|].
  simpl. rewrite IH. lia.
Qed.

(** X10.  For a result whose answer is the string [s], the narrative
    section opens the expanded expander, then for each
    whitespace-separated token of [s] in order shows the text so far with
    the cursor and pauses (two events per token), and ends with the full
    text without cursor.  The final text is the tokens each followed by
    one space: it has the same non-blank characters as [s] in the same
    order, so the typing effect only normalises whitespace. *)
Theorem render_answer_typing r s w :
  r !! py "answer" = Some (VStr s) ->
  render_answer r w
  = (inr tt,
     log w (StExpander (py "分析结果") true
            :: typing_frames [] (py_split s)
            ++ [StMarkdown (card (typed_text (py_split s)))]))
  /\ length (typing_frames [] (py_split s)) = 2 * length (py_split s)
  /\ filter not_space (typed_text (py_split s)) = filter not_space s.
Proof.
  intros Hr. split; [|split].
  - unfold render_answer. rewrite bind_emit, bind_lift. simpl py_getitem.
    rewrite Hr. unfold ok. rewrite bind_lift. simpl py_split_val. unfold ok.
    rewrite bind_run, typing_loop_run. unfold emit, log, card.
    cbn [session out app]. rewrite <- !app_assoc. reflexivity.
  - apply typing_frames_length.
  - destruct (py_split_tokens s) as [Ht Hc].
    by rewrite typed_text_characters, Hc.
Qed.

Lemma render_answer_typing_witness :
  length (typing_frames [] (py_split (py "Sales grow  southwards"))) = 6.
Proof.
  rewrite (proj1 (proj2 (render_answer_typing Ref.full_result
                           (py "Sales grow  southwards") w0 eq_refl))).
  reflexivity.
Defined.

(** ** Stripped elements and previews *)

Lemma matching_elem names nm kids :
  matching names (NElem nm kids)
  = (if bool_decide (nm ∈ names) then [NElem nm kids] else [])
    ++ flat_map (matching names) kids.
Proof. reflexivity. Qed.

Lemma decomposed_elem names nm kids :
  decomposed names (NElem nm kids)
  = if bool_decide (nm ∈ names) then []
    else [NElem nm (flat_map (decomposed names) kids)].
Proof.
  simpl. by case_bool_decide.
Qed.

Lemma matching_decomposed names n :
  flat_map (matching names) (decomposed names n) = [].
Proof.
  induction n as [s|nm kids IH] using Node_nested_ind; [done|].
  rewrite decomposed_elem. case_bool_decide as Hnm; [done|].
  cbn [flat_map]. rewrite matching_elem, bool_decide_eq_false_2 by done.
  rewrite app_nil_r. simpl.
  induction IH as [|k kids Hk _ IHkids]; [done|].
  simpl. by rewrite flat_map_app, Hk, IHkids.
Qed.

(** X6.  After the loop that decomposes every element found for [names], a
    new search for [names] finds nothing: no script or style element
    survives, at any depth. *)
Theorem decompose_all_complete names soup :
  find_all names (decompose_all names soup) = [].
Proof.
  unfold find_all, decompose_all. induction soup as [|n soup IH]; [done|].
  simpl. by rewrite flat_map_app, IH, matching_decomposed.
Qed.

Lemma decompose_all_strings names soup :
  flat_map strings_of (decompose_all names soup)
  = flat_map (visible_strings names) soup.
Proof.
  unfold decompose_all. induction soup as [|n soup IH]; [done|].
  simpl. by rewrite flat_map_app, IH, decomposed_strings.
Qed.

(** X7.  [process_html_file] raises what the parser raises and otherwise
    returns, without touching the world, the concatenation in document
    order of the text nodes that lie outside every script and style
    element. *)
Theorem process_html_file_visible L file w :
  process_html_file L file w =
  match BeautifulSoup_file L file with
  | inl e => (inl e, w)
  | inr soup =>
      (inr (concat (flat_map (visible_strings ["script"; "style"]) soup)), w)
  end.
Proof.
  unfold process_html_file. rewrite bind_lift.
  destruct (BeautifulSoup_file L file) as [e|soup]; [done|].
  cbv zeta. unfold get_text. by rewrite decompose_all_strings.
Qed.

Lemma text_preview_run label t w :
  text_preview label (VStr t) w
  = (inr tt, log w [StExpander label false;
                    StTextArea empty_str (preview t) false]).
Proof.
  unfold text_preview. rewrite bind_emit. cbn [py_slice_to py_len].
  unfold ok. rewrite !bind_lift. cbn [py_add_str]. unfold ok.
  rewrite ?bind_lift. unfold emit, log, preview. cbn [session out].
  rewrite <- app_assoc. cbn [app]. do 4 f_equal.
  case_bool_decide; case_bool_decide; try lia.
  - reflexivity.
  - unfold empty_str. by rewrite app_nil_r, take_ge by lia.
Qed.

(** X9.  The preview of a stored text opens a collapsed expander and shows
    one text area whose value is the text itself when it has at most 2000
    characters and otherwise its first 2000 characters followed by "...";
    the value is never longer than 2003 characters and always agrees with
    the text on the first 2000. *)
Theorem text_preview_truncates label t w :
  text_preview label (VStr t) w
  = (inr tt, log w [StExpander label false;
                    StTextArea empty_str (preview t) false])
  /\ length (preview t) <= 2000 + 3
  /\ take 2000 (preview t) = take 2000 t.
Proof.
  split; [apply text_preview_run|split].
  - unfold preview. case_bool_decide; [lia|].
    rewrite length_app, length_take.
    change (length (py "...")) with 3. lia.
  - unfold preview. case_bool_decide; [done|].
    rewrite take_app_le by (rewrite length_take; lia).
    by rewrite take_take, Nat.min_id.
Qed.

(** ** Charts and the analysis handler *)

Ltac py_run :=
  repeat (first [rewrite bind_lift | rewrite bind_emit
                | rewrite bind_get_session | rewrite lift_run];
          cbv beta iota).

(** X12.  [create_chart] either draws exactly one figure, of the kind it
    was asked for, and returns, or leaves the world as it was; when it
    leaves the world as it was and still returns normally, the kind is
    neither "bar" nor "line" (an unknown kind is silently ignored). *)
Theorem create_chart_all_or_nothing L spec kind w :
  (exists fig,
     create_chart L spec kind w = (inr tt, log w [StPyplot fig])
     /\ kind = kind_name (fig_kind fig))
  \/ ((create_chart L spec kind w).2 = w
      /\ ((create_chart L spec kind w).1 = inr tt ->
          kind <> "bar" /\ kind <> "line")).
Proof.
  unfold create_chart. py_run.
  destruct (plt_style_use L _) as [e|[]]; [by right|]. py_run.
  destruct (py_getitem spec (py "columns")) as [e|x] eqn:Hx; [by right|].
  py_run.
  destruct (py_getitem spec (py "data")) as [e|y] eqn:Hy; [by right|].
  py_run.
  destruct (pd_DataFrame_xy L x y) as [e|frame]; [by right|]. cbv beta iota.
  case_bool_decide as Hbar.
  - py_run. destruct (py_len x) as [e|n]; [by right|]. py_run.
    destruct (ax_bar L x y) as [e|heights]; [by right|]. py_run.
    destruct (py_get spec _ _) as [e|title]; [by right|]. py_run.
    destruct (py_get spec _ _) as [e|xl]; [by right|]. py_run.
    destruct (py_get spec _ _) as [e|yl]; [by right|]. py_run.
    left. eexists. split; [reflexivity|done].
  - case_bool_decide as Hline.
    + py_run. destruct (ax_plot L x y) as [e|[]]; [by right|]. py_run.
      destruct (py_get spec _ _) as [e|title]; [by right|]. py_run.
      destruct (py_get spec _ _) as [e|xl]; [by right|]. py_run.
      destruct (py_get spec _ _) as [e|yl]; [by right|]. py_run.
      left. eexists. split; [reflexivity|done].
    + by right.
Qed.

Lemma display_result_no_keys L r w :
  (forall s, has_key (part_key s) r = false) ->
  display_result L r w = (inr tt, w).
Proof.
  intros Hk. unfold display_result.
  pose proof (Hk Narrative) as H1. pose proof (Hk Table) as H2.
  pose proof (Hk Bar) as H3. pose proof (Hk Line) as H4.
  cbn [part_key] in *. by rewrite H1, H2, H3, H4.
Qed.

Lemma typing_loop_frames_only (P : Event -> Prop) chunks full :
  (forall html, P (StMarkdown html)) -> P Sleep ->
  effect eq P (typing_loop full chunks).
Proof.
  intros Hm Hs. revert full.
  induction chunks as [|c chunks IH]; intros full; simpl.
  - effect_auto.
  - effect_auto; auto.
Qed.

Lemma display_result_no_agent L r :
  effect eq not_agent_call (display_result L r).
Proof.
  unfold display_result, render_answer, render_table, render_bar, render_line.
  assert (forall spec kind, effect eq not_agent_call (create_chart L spec kind)).
  { intros. eapply effect_weaken; [| |apply create_chart_effect]; [done|].
    by intros []. }
  assert (forall chunks full, effect eq not_agent_call (typing_loop full chunks)).
  { intros. by apply typing_loop_frames_only. }
  effect_auto; done.
Qed.

(** X14.  The handler of the analysis button never raises and never
    changes the session state, whatever the input mode, the query, the
    stored content and the behaviour of the agent and the renderers. *)
Theorem handler_never_raises L im q w :
  (analyze_button_handler L im q w).1 = inr tt
  /\ session (analyze_button_handler L im q w).2 = session w.
Proof.
  split; [|symmetry; apply (analyze_button_handler_effect L im q w)].
  unfold analyze_button_handler. rewrite bind_get_session.
  destruct (source_missing im (session w)); [done|].
  destruct (negb (truthy_str q)); [done|].
  rewrite bind_emit, try_except_run.
  by destruct (_ ≫= _) as [[e|[]] w'].
Qed.

Lemma effect_log {A} P (m : Py A) w :
  effect eq P m -> exists evs, (m w).2 = log w evs /\ Forall P evs.
Proof.
  intros Hm. destruct (Hm w) as [Hs (evs & Ho & Hp)]. exists evs.
  split; [|done]. destruct (m w).2 as [s' o']. simpl in *. unfold log.
  by rewrite Hs, Ho.
Qed.

Lemma report_run e w :
  report e w
  = (inr tt, log w [StError (py "分析过程中发生错误: " ++ exn_str e)]).
Proof. reflexivity. Qed.

Lemma guarded_render_no_agent L r :
  effect eq not_agent_call (try_except (display_result L r) report).
Proof.
  unfold report. effect_auto. apply display_result_no_agent.
Qed.

(** X15.  One click calls the agent at most once, and only with the stored
    frame and the query as typed: the events the handler adds contain no
    agent call, or exactly one, and that one is [dataframe_agent(df,
    query)] for the frame held in the session. *)
Theorem handler_agent_calls L im q w :
  exists evs,
    (analyze_button_handler L im q w).2 = log w evs
    /\ (Forall not_agent_call evs
        \/ exists frame pre post,
             df (session w) = Some frame
             /\ evs = pre ++ AgentCall frame q :: post
             /\ Forall not_agent_call pre /\ Forall not_agent_call post).
Proof.
  unfold analyze_button_handler. rewrite bind_get_session.
  destruct (source_missing im (session w)).
  { eexists. split; [reflexivity|]. left. by repeat constructor. }
  destruct (negb (truthy_str q)).
  { eexists. split; [reflexivity|]. left. by repeat constructor. }
  rewrite bind_emit. change (mkWorld _ _) with (log w [spinner]).
  fold report. rewrite try_except_run, bind_run.
  destruct (df (session w)) as [frame|] eqn:Hdf.
  - rewrite (analysis_dispatch_frame L q (log w [spinner]) frame Hdf), log_log.
    cbn [app].
    destruct (dataframe_agent L frame q) as [e|r].
    + rewrite report_run, log_log. eexists. split; [reflexivity|].
      right. exists frame, [spinner], [StError (py "分析过程中发生错误: " ++ exn_str e)].
      by repeat constructor.
    + pose proof (guarded_render_no_agent L r) as Hg.
      destruct (effect_log _ _ (log w [spinner; AgentCall frame q]) Hg)
        as (evs & Hrun & Hevs).
      rewrite try_except_run in Hrun. rewrite Hrun, log_log.
      eexists. split; [reflexivity|].
      right. exists frame, [spinner], evs. by repeat constructor.
  - unfold analysis_dispatch. rewrite bind_get_session, session_log, Hdf.
    rewrite bind_lift.
    destruct (py_slice_to 3000 _) as [e|head].
    + rewrite report_run, log_log. eexists. split; [reflexivity|].
      left. by repeat constructor.
    + destruct (effect_log _ _ (log w [spinner])
                  (guarded_render_no_agent L
                     (dict [(py "answer",
                             VStr (py "文本分析结果:" ++ [10; 10]%N
                                   ++ py_format head))])))
        as (evs & Hrun & Hevs).
      exists ([spinner] ++ evs). rewrite <- log_log. split; [exact Hrun|].
      left. by constructor.
Qed.

(** X16.  When a source is given and a query typed but the session holds
    neither a frame nor a text (both slots [None]), the handler shows the
    spinner and then an error message for the exception raised by slicing
    [None]; nothing is rendered and no agent is called. *)
Theorem handler_without_content L im q w :
  source_missing im (session w) = false -> q <> [] ->
  df (session w) = None -> text_content (session w) = VNone ->
  analyze_button_handler L im q w
  = (inr tt,
     log w [spinner;
            StError (py "分析过程中发生错误: "
                     ++ py "'NoneType' object is not subscriptable")]).
Proof.
  intros Hsrc Hq Hdf Ht. rewrite handler_passes_guards by done.
  rewrite try_except_run, bind_run. unfold analysis_dispatch.
  rewrite bind_get_session, session_log, Hdf, Ht. cbn [py_slice_to].
  unfold err. rewrite bind_lift, report_run, log_log. reflexivity.
Qed.

Lemma handler_without_content_witness :
  analyze_button_handler Ref.lib UploadFile (py "why") bare_world
  = (inr tt,
     log bare_world
       [spinner;
        StError (py "分析过程中发生错误: "
                 ++ py "'NoneType' object is not subscriptable")]).
Proof.
  apply handler_without_content;
    [reflexivity | discriminate | reflexivity | reflexivity].
Defined.

(** ** The renderer and the style name *)

Lemma create_chart_silent L spec kind e (P : Event -> Prop) :
  style_rejected L e -> effect eq P (create_chart L spec kind).
Proof.
  intros He w. rewrite (create_chart_style_rejected L spec kind w e He).
  split; [done|]. exists []. by rewrite app_nil_r.
Qed.

Lemma display_result_no_pyplot L r e :
  style_rejected L e -> effect eq not_pyplot (display_result L r).
Proof.
  intros He.
  unfold display_result, render_answer, render_table, render_bar, render_line.
  pose proof (fun spec kind => create_chart_silent L spec kind e not_pyplot He).
  assert (forall chunks full, effect eq not_pyplot (typing_loop full chunks)).
  { intros. by apply typing_loop_frames_only. }
  effect_auto; done.
Qed.

Lemma has_key_lookup k r :
  has_key k r = true -> exists v, r !! k = Some v.
Proof. unfold has_key. intros [v ?]%bool_decide_eq_true. by exists v. Qed.

Lemma render_bar_aborts L r w e :
  style_rejected L e -> has_key (py "bar") r = true ->
  render_bar L r w = (inl e, log w [StExpander (py "柱状图") true]).
Proof.
  intros He [spec Hk]%has_key_lookup. unfold render_bar.
  rewrite bind_emit, bind_lift. cbn [py_getitem]. rewrite Hk. unfold ok.
  by apply create_chart_style_rejected.
Qed.

Lemma render_line_aborts L r w e :
  style_rejected L e -> has_key (py "line") r = true ->
  render_line L r w = (inl e, log w [StExpander (py "折线图") true]).
Proof.
  intros He [spec Hk]%has_key_lookup. unfold render_line.
  rewrite bind_emit, bind_lift. cbn [py_getitem]. rewrite Hk. unfold ok.
  by apply create_chart_style_rejected.
Qed.

Lemma seq_raises (m1 m2 : Py unit) w :
  (forall w', exists e, (m2 w').1 = inl e) ->
  exists e, ((m1 ;; m2) w).1 = inl e.
Proof.
  intros H2. rewrite bind_run. destruct (m1 w) as [[e|[]] w1]; [by exists e|].
  apply H2.
Qed.

Lemma display_result_chart_raises L r w e :
  style_rejected L e ->
  has_key (py "bar") r = true \/ has_key (py "line") r = true ->
  exists e', (display_result L r w).1 = inl e'.
Proof.
  intros He Hk. unfold display_result.
  apply seq_raises. intros w1. apply seq_raises. intros w2.
  destruct (has_key (py "bar") r) eqn:Hbar.
  - rewrite bind_run, (render_bar_aborts L r w2 e) by done. by exists e.
  - destruct Hk as [|Hline]; [done|]. rewrite Hline.
    apply seq_raises. intros w3.
    rewrite (render_line_aborts L r w3 e) by done. by exists e.
Qed.

Lemma bar_section_last L r e (m : Py unit) :
  style_rejected L e -> has_key (py "bar") r = true ->
  opens [part_label Bar] (render_bar L r ;; m).
Proof.
  intros He Hk w. rewrite bind_run, (render_bar_aborts L r w e) by done.
  exists [StExpander (py "柱状图") true]. by repeat split.
Qed.

Lemma display_result_bar_opens L r e :
  style_rejected L e -> has_key (py "bar") r = true ->
  opens (step_sections Narrative r ++ step_sections Table r
         ++ [part_label Bar]) (display_result L r).
Proof.
  intros He Hk. unfold display_result. rewrite Hk.
  apply opens_seq; [apply opens_guarded, render_answer_renders|].
  apply opens_seq; [apply opens_guarded, render_table_renders|].
  by eapply bar_section_last.
Qed.

Lemma step_sections_label s s' r :
  part_label s' ∈ step_sections s r -> s' = s.
Proof.
  unfold step_sections. destruct (has_key _ r); [|by intros ?%elem_of_nil].
  intros ->%list_elem_of_singleton%part_label_inj. done.
Qed.

Lemma render_answer_run r s w :
  r !! py "answer" = Some (VStr s) ->
  render_answer r w
  = (inr tt,
     log w (StExpander (py "分析结果") true
            :: typing_frames [] (py_split s)
            ++ [StMarkdown (card (typed_text (py_split s)))])).
Proof.
  intros Hr. unfold render_answer. rewrite bind_emit, bind_lift.
  cbn [py_getitem]. rewrite Hr. unfold ok. rewrite bind_lift.
  cbn [py_split_val]. unfold ok.
  rewrite bind_run, typing_loop_run. unfold emit, log, card.
  cbn [session out app]. rewrite <- !app_assoc. reflexivity.
Qed.

Lemma render_table_run L r t d c frame w :
  r !! py "table" = Some t ->
  py_getitem t (py "data") = inr d -> py_getitem t (py "columns") = inr c ->
  pd_DataFrame_columns L d c = inr frame ->
  render_table L r w
  = (inr tt, log w [StExpander (py "数据表格") true;
                    StDataframe frame (HighlightMax "#d8f3dc")]).
Proof.
  intros Hr Hd Hc Hf.
  assert (py_getitem (VDict r) (py "table") = inr t) as Ht.
  { cbn [py_getitem]. by rewrite Hr. }
  unfold render_table. py_run. rewrite Ht. py_run. rewrite Hd. py_run.
  rewrite Hc. py_run. rewrite Hf. cbv beta iota.
  unfold emit, log. cbn [session out]. by rewrite <- app_assoc.
Qed.

Lemma lookup_has_key k r v : r !! k = Some v -> has_key k r = true.
Proof. intros Hk. unfold has_key. apply bool_decide_eq_true. by exists v. Qed.

Lemma display_result_full_run L r w e s t d c frame :
  style_rejected L e ->
  r !! py "answer" = Some (VStr s) -> r !! py "table" = Some t ->
  py_getitem t (py "data") = inr d -> py_getitem t (py "columns") = inr c ->
  pd_DataFrame_columns L d c = inr frame ->
  has_key (py "bar") r = true ->
  display_result L r w
  = (inl e, log w (rendered_before_chart s frame
                   ++ [StExpander (py "柱状图") true])).
Proof.
  intros He Ha Ht Hd Hc Hf Hbar. unfold display_result.
  rewrite (lookup_has_key _ _ _ Ha), (lookup_has_key _ _ _ Ht), Hbar.
  rewrite bind_run, (render_answer_run r s w Ha).
  rewrite bind_run, (render_table_run L r t d c frame _ Ht Hd Hc Hf).
  rewrite bind_run, (render_bar_aborts L r _ e He Hbar).
  rewrite !log_log. unfold rendered_before_chart.
  cbn [app]. rewrite <- ?app_assoc. reflexivity.
Qed.

(** C5.  With the style name of line 139 refused by [plt.style.use],
    [display_result] still tests the four keys one by one and opens
    sections in the order answer, table, bar, line, only for keys that are
    present; but it draws no chart and does not get past the first chart:
    a result with a "bar" or "line" key makes it raise, after a "bar" key
    the line section is never opened, and a result whose answer and table
    render ends, with the exception of [plt.style.use], right after the
    heading of the bar section. *)
Theorem display_result_sections L r w e :
  style_rejected L e ->
  (exists evs,
     out (display_result L r w).2 = out w ++ evs
     /\ sections_of evs `prefix_of` present_sections r
     /\ (forall s, has_key (part_key s) r = false ->
                   part_label s ∉ sections_of evs)
     /\ ((display_result L r w).1 = inr tt ->
         sections_of evs = present_sections r)
     /\ Forall not_pyplot evs
     /\ (has_key (py "bar") r = true -> part_label Line ∉ sections_of evs))
  /\ (has_key (py "bar") r = true \/ has_key (py "line") r = true ->
      exists e', (display_result L r w).1 = inl e')
  /\ (forall s t d c frame,
        r !! py "answer" = Some (VStr s) -> r !! py "table" = Some t ->
        py_getitem t (py "data") = inr d ->
        py_getitem t (py "columns") = inr c ->
        pd_DataFrame_columns L d c = inr frame ->
        has_key (py "bar") r = true ->
        display_result L r w
        = (inl e, log w (rendered_before_chart s frame
                         ++ [StExpander (py "柱状图") true]))).
Proof.
  intros He. split; [|split].
  - destruct (display_result_opens L r w) as (evs & Ho & Hp & Hn).
    exists evs. split; [done|]. split; [done|]. split; [|split; [done|split]].
    + intros s Hk Hin.
      assert (part_label s ∈ present_sections r) as Hin'.
      { destruct Hp as [k ->]. apply elem_of_app. by left. }
      apply elem_of_present_sections in Hin'. congruence.
    + destruct (display_result_no_pyplot L r e He w) as [_ (evs' & Ho' & Hp')].
      rewrite Ho in Ho'. by apply app_inv_head in Ho' as ->.
    + intros Hbar Hin.
      destruct (display_result_bar_opens L r e He Hbar w)
        as (evs' & Ho' & [k Hk] & _).
      rewrite Ho in Ho'. apply app_inv_head in Ho' as <-.
      assert (part_label Line ∈ step_sections Narrative r
                ++ step_sections Table r ++ [part_label Bar]) as Hl.
      { rewrite Hk. apply elem_of_app. by left. }
      rewrite !elem_of_app in Hl.
      destruct Hl as [Hl|[Hl|Hl]].
      * by apply step_sections_label in Hl.
      * by apply step_sections_label in Hl.
      * by apply list_elem_of_singleton, part_label_inj in Hl.
  - by apply (display_result_chart_raises L r w e).
  - intros. by eapply display_result_full_run.
Qed.

(** A result with all four keys: three sections are opened, no chart is
    drawn, the line section is missing. *)
Lemma display_result_sections_witness :
  display_result Ref.lib Ref.full_result w0
  = (inl (Ref.StyleError (py "seaborn-white grid")),
     log w0 (rendered_before_chart (py "Sales grow  southwards")
               (mkFrame [py "region"; py "sales"] [])
             ++ [StExpander (py "柱状图") true])).
Proof.
  apply (proj2 (proj2 (display_result_sections Ref.lib Ref.full_result w0
                         (Ref.StyleError (py "seaborn-white grid"))
                         ref_style_rejected))
           (py "Sales grow  southwards")
           (VDict (dict [(py "data", VList [VList [VNum 1; VNum 10]]);
                         (py "columns", VList [VStr (py "region");
                                               VStr (py "sales")])]))
           (VList [VList [VNum 1; VNum 10]])
           (VList [VStr (py "region"); VStr (py "sales")]));
    by vm_compute.
Defined.

(** A result with only the bar key: the heading of the bar section, then
    the exception. *)
Example only_bar_sections :
  display_result Ref.lib (dict [(py "bar", Ref.chart_spec)]) w0
  = (inl (Ref.StyleError (py "seaborn-white grid")),
     log w0 [StExpander (py "柱状图") true]).
Proof. by vm_compute. Qed.

(** ** The URL section *)

Lemma bind_ret {A B} (a : A) (k : A -> Py B) (w : World) :
  (mret a ≫= k) w = k a w.
Proof. reflexivity. Qed.

Lemma ingest_url_run L url w :
  ingest_url L url w
  = (fetched ← fetch_url_content L url; url_rest L fetched) (log w url_banner).
Proof.
  unfold ingest_url. rewrite !bind_emit. unfold log, url_banner.
  cbn [session out]. by rewrite <- app_assoc.
Qed.

Lemma url_rest_error L e w :
  url_rest L (error_result e) w
  = (inr tt, log w [StError (py "错误: " ++ exn_str e)]).
Proof. reflexivity. Qed.

Lemma url_rest_unknown L body w :
  url_rest L (unknown_result body) w
  = (inr tt, store_text (py "内容预览") body w).
Proof.
  transitivity
    ((modify_session (set_text_content (VStr body)) ;;
      text_preview (py "内容预览") (VStr body)) w); [reflexivity|].
  rewrite bind_run. cbn [modify_session]. 
  change (modify_session (set_text_content (VStr body)) w)
    with (@inr Exn _ tt, mkWorld (set_text_content (VStr body) (session w)) (out w)).
  cbv beta iota. by rewrite text_preview_run.
Qed.

Lemma url_rest_pdf L text w :
  url_rest L (pdf_result text) w
  = if truthy_str text
    then (inr tt, store_text (py "内容预览") text w)
    else (inl (KeyError (py "content")), w).
Proof.
  destruct text as [|c text].
  - reflexivity.
  - transitivity
      ((modify_session (set_text_content (VStr (c :: text))) ;;
        text_preview (py "内容预览") (VStr (c :: text))) w); [reflexivity|].
    rewrite bind_run.
    change (modify_session (set_text_content (VStr (c :: text))) w)
      with (@inr Exn _ tt,
            mkWorld (set_text_content (VStr (c :: text)) (session w)) (out w)).
    cbv beta iota. by rewrite text_preview_run.
Qed.

Lemma url_rest_html L tables text w :
  url_rest L (html_result tables text) w
  = (store_first_table L tables ;;
     text_preview (py "网页文本内容") (VStr text)) w.
Proof. destruct tables; reflexivity. Qed.

Lemma fetch_run_log L url w :
  exists d evs,
    fetch_url_content L url w = (inr d, log w evs) /\ fetch_shape d.
Proof.
  destruct (fetch_shape_run L url w) as (d & Hd & Hshape).
  destruct (effect_log _ _ w (fetch_url_content_effect L url)) as (evs & Hw & _).
  exists d, evs. split; [|done].
  destruct (fetch_url_content L url w) as [r w']. simpl in *. by subst.
Qed.

Lemma fetch_run_result L url w d :
  (fetch_url_content L url w).1 = inr d ->
  exists evs, fetch_url_content L url w = (inr d, log w evs).
Proof.
  intros Hd.
  destruct (effect_log _ _ w (fetch_url_content_effect L url)) as (evs & Hw & _).
  exists evs. destruct (fetch_url_content L url w) as [r w']. simpl in *.
  by subst.
Qed.

Lemma ingest_url_with L url w d :
  (fetch_url_content L url (log w url_banner)).1 = inr d ->
  exists evs, ingest_url L url w = url_rest L d (log w (url_banner ++ evs)).
Proof.
  intros Hd. destruct (fetch_run_result L url _ d Hd) as [evs Hrun].
  exists evs. by rewrite ingest_url_run, bind_run, Hrun, log_log.
Qed.

(** X17.  When fetching the address fails with [e] (the scheme parse, the
    request, the status check or a parser of the classification raises),
    the URL section returns normally and the last thing it shows is the
    error message "错误: " followed by [str(e)]. *)
Theorem ingest_url_fetch_failure L url w e :
  fetch_failure L url e ->
  exists pre,
    ingest_url L url w
    = (inr tt, log w (pre ++ [StError (py "错误: " ++ exn_str e)])).
Proof.
  intros He.
  destruct (fetch_body_raises L url (log w url_banner) e He) as [w' Hbody].
  destruct (ingest_url_with L url w (error_result e)) as [evs ->].
  { by rewrite fetch_url_content_run, Hbody. }
  exists (url_banner ++ evs). by rewrite url_rest_error, log_log.
Qed.

Lemma ingest_url_fetch_failure_witness :
  exists pre,
    ingest_url Ref.lib (py "example.com/missing") w0
    = (inr tt, log w0 (pre ++ [StError (py "错误: " ++ exn_str Ref.HTTPError)])).
Proof.
  apply ingest_url_fetch_failure. by eapply (fail_status _ _ []).
Defined.

(** X18.  For a fetched PDF whose pages yield no text at all, the URL
    section raises [KeyError('content')] and stores nothing: the pdf
    result has an empty text and no "content" key, so [content.get("text")
    or content["content"]] falls through to the missing key. *)
Theorem ingest_url_empty_pdf L url w resp texts :
  fetched L url resp ->
  declared "text/html" resp = false ->
  declared "application/pdf" resp = true ->
  pdf_page_texts L (resp_content resp) = inr texts ->
  concat texts = [] ->
  (ingest_url L url w).1 = inl (KeyError (py "content"))
  /\ session (ingest_url L url w).2 = session w.
Proof.
  intros Hf Hh Hp Ht Hempty.
  destruct (fetch_after_status L url (log w url_banner) resp Hf)
    as (w' & _ & Hbody).
  destruct (ingest_url_with L url w (pdf_result [])) as [evs ->].
  { rewrite fetch_url_content_run, Hbody, Hh, Hp, Ht. simpl. by rewrite Hempty. }
  by rewrite url_rest_pdf.
Qed.

Lemma ingest_url_empty_pdf_witness :
  (ingest_url (serving scanned_pdf [empty_str; empty_str])
     (py "example.com/scan.pdf") w0).1
  = inl (KeyError (py "content")).
Proof.
  apply (ingest_url_empty_pdf (serving scanned_pdf [empty_str; empty_str])
           (py "example.com/scan.pdf") w0 scanned_pdf [empty_str; empty_str]
           (fetched_serving _ _ (py "example.com/scan.pdf") [] eq_refl) eq_refl eq_refl eq_refl eq_refl).
Defined.

(** X19.  For a fetched markup page without any table element, the URL
    section returns normally and ends with the collapsed expander "网页文本内容"
    and the preview of the page's visible text. *)
Theorem ingest_url_no_tables L url w resp soup :
  fetched L url resp -> declared "text/html" resp = true ->
  BeautifulSoup L (resp_text resp) = inr soup ->
  find_all ["table"] soup = [] ->
  exists pre,
    ingest_url L url w
    = (inr tt,
       log w (pre ++ [StExpander (py "网页文本内容") false;
                      StTextArea empty_str (preview (visible_text soup)) false])).
Proof.
  intros Hf Hh Hb Hnone.
  destruct (fetch_markup_run L url (log w url_banner) resp soup Hf Hh Hb)
    as [w' Hbody].
  rewrite Hnone in Hbody. simpl in Hbody.
  destruct (ingest_url_with L url w (html_result [] (visible_text soup)))
    as [evs ->].
  { rewrite fetch_url_content_run, Hbody, get_text_strip_visible. reflexivity. }
  exists (url_banner ++ evs).
  rewrite url_rest_html. cbn [store_first_table]. rewrite bind_ret.
  by rewrite text_preview_run, log_log.
Qed.

Lemma ingest_url_no_tables_witness :
  exists pre,
    ingest_url (serving greeting_page []) (py "example.com") w0
    = (inr tt,
       log w0 (pre ++ [StExpander (py "网页文本内容") false;
                       StTextArea empty_str (py "hello") false])).
Proof.
  exact (ingest_url_no_tables (serving greeting_page []) (py "example.com") w0
           greeting_page [NText (py "hello")]
           (fetched_serving _ _ (py "example.com") [] eq_refl) eq_refl eq_refl eq_refl).
Defined.

(** ** What the page stores *)

Lemma store_first_table_run L f0 entries w :
  (store_first_table L (table_entry 0 f0 :: entries) w).1
  = match pd_DataFrame L (to_dict_records f0) with
    | inr _ => inr tt
    | inl e => inl e
    end
  /\ session (store_first_table L (table_entry 0 f0 :: entries) w).2
     = match pd_DataFrame L (to_dict_records f0) with
       | inr frame => set_df frame (session w)
       | inl _ => session w
       end.
Proof.
  cbn [store_first_table]. rewrite bind_emit.
  change (py_getitem (table_entry 0 f0) (py "data"))
    with (@inr Exn _ (to_dict_records f0)).
  rewrite bind_lift. cbv beta iota. rewrite bind_lift.
  by destruct (pd_DataFrame L (to_dict_records f0)) as [e|frame].
Qed.

(** X20.  For a fetched markup page with at least one table, all of which
    parse, the frame stored by the URL section is the one built from the
    records of the first table in document order: when [pd.DataFrame]
    builds it the section returns normally with that frame in the frame
    slot and the other slots as before, and when it raises the section
    raises the same exception and the session is unchanged. *)
Theorem ingest_url_first_table L url w resp soup t0 rest f0 :
  fetched L url resp -> declared "text/html" resp = true ->
  BeautifulSoup L (resp_text resp) = inr soup ->
  find_all ["table"] soup = t0 :: rest ->
  Forall (fun t => is_Some (first_frame L t)) (t0 :: rest) ->
  first_frame L t0 = Some f0 ->
  match pd_DataFrame L (to_dict_records f0) with
  | inr frame =>
      (ingest_url L url w).1 = inr tt
      /\ session (ingest_url L url w).2 = set_df frame (session w)
  | inl e =>
      (ingest_url L url w).1 = inl e
      /\ session (ingest_url L url w).2 = session w
  end.
Proof.
  intros Hf Hh Hb Htabs Hall Hf0.
  destruct (fetch_markup_run L url (log w url_banner) resp soup Hf Hh Hb)
    as [w' Hbody].
  rewrite Htabs in Hbody.
  destruct (extract_tables_all L (t0 :: rest) 0 Hall)
    as (entries & Hrun & Hlen & Hent).
  rewrite Hrun in Hbody.
  destruct (Hent 0 t0 eq_refl) as (f & Hf' & He0).
  assert (f = f0) as -> by congruence.
  destruct entries as [|entry entries]; [done|]. injection He0 as ->.
  destruct (ingest_url_with L url w
              (html_result (table_entry 0 f0 :: entries)
                 (get_text_strip (decompose_all ["script"; "style"] soup))))
    as [evs ->].
  { by rewrite fetch_url_content_run, Hbody. }
  rewrite url_rest_html, bind_run.
  destruct (store_first_table_run L f0 entries (log w (url_banner ++ evs)))
    as [Hr Hs].
  destruct (store_first_table L _ _) as [r w1]. simpl in Hr, Hs.
  destruct (pd_DataFrame L (to_dict_records f0)) as [e|frame];
    simpl in Hr; subst r.
  - done.
  - by rewrite text_preview_run.
Qed.

Lemma ingest_url_first_table_witness :
  holds_frame (session (ingest_url Ref.lib (py "example.com/data") w0).2).
Proof.
  pose proof (ingest_url_first_table Ref.lib (py "example.com/data") w0
                report_response Ref.report_page Ref.sales_table
                [Ref.stock_table] Ref.sales_frame
                ltac:(exists []; by vm_compute) eq_refl eq_refl eq_refl
                ltac:(repeat constructor; by eexists) eq_refl) as H.
  cbv beta iota in H.
  destruct (pd_DataFrame Ref.lib (to_dict_records Ref.sales_frame))
    as [e|frame] eqn:Hpd; [by vm_compute in Hpd|].
  destruct H as [_ ->]. by exists frame.
Defined.

#[global] Instance any_session_refl : Reflexive any_session.
Proof. done. Qed.

#[global] Instance any_session_trans : Transitive any_session.
Proof. done. Qed.

#[global] Instance grows_refl : Reflexive grows.
Proof. intros s. by split. Qed.

#[global] Instance grows_trans : Transitive grows.
Proof. intros s1 s2 s3 [] []. split; auto. Qed.

#[global] Instance keeps_text_ok_refl : Reflexive keeps_text_ok.
Proof. intros s H. exact H. Qed.

#[global] Instance keeps_text_ok_trans : Transitive keeps_text_ok.
Proof. intros s1 s2 s3 H1 H2 H. auto. Qed.

Lemma touches_bind {A B} (R : relation Session) `{!Transitive R}
    (m : Py A) (k : A -> Py B) :
  touches R m -> (forall a, touches R (k a)) -> touches R (m ≫= k).
Proof.
  intros Hm Hk w. rewrite bind_run. specialize (Hm w).
  destruct (m w) as [[e|a] w1]; simpl in *; [done|].
  etrans; [exact Hm|apply Hk].
Qed.

Section Stores.

Context (R : relation Session) `{!Reflexive R, !Transitive R}.
Hypothesis R_df : forall f s, R s (set_df f s).
Hypothesis R_text : forall t s, R s (set_text_content (VStr t) s).
Hypothesis R_file : forall u s, R s (set_uploaded_file u s).
Hypothesis R_url : forall u s, R s (set_input_url u s).

Lemma ingest_file_stores L wd file : effect R any_event (ingest_file L wd file).
Proof using All.
  unfold ingest_file, process_word_file, process_html_file, process_pdf_file.
  assert (forall label text, effect R any_event (text_preview label text)).
  { intros. eapply effect_eq_any; [done|apply text_preview_effect]. }
  effect_auto; auto.
Qed.

Lemma url_rest_stores L d : fetch_shape d -> touches R (url_rest L d).
Proof using All.
  assert (forall label text, effect R any_event (text_preview label text)).
  { intros. eapply effect_eq_any; [done|apply text_preview_effect]. }
  intros [tables text|text|body|e] w.
  - rewrite url_rest_html. revert w. apply (effect_touches R any_event).
    unfold store_first_table. effect_auto; auto.
  - rewrite url_rest_pdf. destruct (truthy_str text); [apply R_text|done].
  - rewrite url_rest_unknown. apply R_text.
  - by rewrite url_rest_error.
Qed.

Lemma ingest_url_stores L url : touches R (ingest_url L url).
Proof using All.
  intros w. rewrite ingest_url_run, bind_run.
  destruct (fetch_run_log L url (log w url_banner)) as (d & evs & -> & Hd).
  apply (url_rest_stores L d Hd (log (log w url_banner) evs)).
Qed.

Lemma page_stores L wd : touches R (page L wd).
Proof using All.
  unfold page.
  apply touches_bind; [done| |intros _].
  { apply (effect_touches R any_event). unfold input_section. effect_auto; auto. }
  apply touches_bind; [done| |intros _].
  - unfold data_preview.
    apply touches_bind; [done| |intros s].
    { apply (effect_touches R any_event). effect_auto. }
    destruct (w_input_method wd).
    + destruct (uploaded_file s).
      * eapply effect_touches, ingest_file_stores.
      * by intros w.
    + destruct (input_url s) as [url|]; [|by intros w].
      destruct (truthy_str url); [apply ingest_url_stores|by intros w].
  - eapply touches_weaken; [|eapply effect_touches, query_section_effect].
    by intros s s' <-.
Qed.

End Stores.

(** X21.  In every session reachable from the initial one by runs of the
    page, the text slot holds [None] or a string, never a value of another
    type. *)
Theorem reachable_text_is_str s : reachable s -> text_ok s.
Proof.
  induction 1 as [|L wd s _ IH]; [by left|].
  revert IH.
  change (keeps_text_ok (session (mkWorld s []))
            (session (page L wd (mkWorld s [])).2)).
  apply page_stores; [apply keeps_text_ok_refl|apply keeps_text_ok_trans|..].
  - by intros f s0 Hs.
  - intros t s0 _. right. by exists t.
  - by intros u s0 Hs.
  - by intros u s0 Hs.
Qed.

Lemma reachable_text_is_str_witness : text_ok after_csv_then_word.
Proof. apply reachable_text_is_str. repeat constructor. Defined.

(** X22.  A run of the page never empties a content slot: a frame slot
    that held a frame holds a frame afterwards, and a text slot that was
    not [None] is not [None] afterwards (the content may be replaced, but
    is never reset). *)
Theorem page_never_clears L wd s : grows s (run_page L wd s).
Proof.
  change (grows (session (mkWorld s [])) (session (page L wd (mkWorld s [])).2)).
  apply page_stores; [apply grows_refl|apply grows_trans|..].
  - intros f s0. split; [|done]. intros _. by exists f.
  - intros t s0. by split.
  - by intros u s0.
  - by intros u s0.
Qed.

(** ** Requests, agent calls and uploads *)

Lemma bind_modify {B} (f : Session -> Session) (k : unit -> Py B) (w : World) :
  (modify_session f ≫= k) w = k tt (mkWorld (f (session w)) (out w)).
Proof. reflexivity. Qed.

Lemma text_preview_ui label text : effect eq is_ui (text_preview label text).
Proof. unfold text_preview. effect_auto. Qed.

Lemma create_chart_ui L spec kind : effect eq is_ui (create_chart L spec kind).
Proof.
  eapply effect_weaken; [| |apply create_chart_effect]; [done|]. by intros [].
Qed.

Lemma display_result_ui L r : effect eq is_ui (display_result L r).
Proof.
  unfold display_result, render_answer, render_table, render_bar, render_line.
  pose proof (create_chart_ui L) as Hc.
  assert (forall chunks full, effect eq is_ui (typing_loop full chunks)) as Ht.
  { intros. by apply typing_loop_frames_only. }
  effect_auto; done.
Qed.

Lemma handler_no_request L im q :
  effect eq not_http (analyze_button_handler L im q).
Proof.
  assert (forall r, effect eq not_http (display_result L r)) as Hd.
  { intros r. eapply effect_weaken; [| |apply display_result_ui]; [done|].
    by intros []. }
  unfold analyze_button_handler, analysis_dispatch. effect_auto; done.
Qed.

Lemma ingest_file_ui L wd file : effect any_session is_ui (ingest_file L wd file).
Proof.
  unfold ingest_file, process_word_file, process_html_file, process_pdf_file.
  assert (forall label text, effect any_session is_ui (text_preview label text)).
  { intros. eapply effect_weaken; [| |apply text_preview_ui]; done. }
  effect_auto; done.
Qed.

(** X23.  In upload mode, and in URL mode while the address is missing or
    empty, a run of the page issues no HTTP request. *)
Theorem page_no_request L wd w :
  w_input_method wd = UploadFile
  \/ w_input_url wd = None \/ w_input_url wd = Some [] ->
  exists evs, out (page L wd w).2 = out w ++ evs /\ Forall not_http evs.
Proof.
  intros Hmode.
  assert (effect any_session not_http (query_section L wd)) as Hq.
  { unfold query_section.
    assert (effect any_session not_http
              (analyze_button_handler L (w_input_method wd) (w_query wd))).
    { eapply effect_weaken; [| |apply handler_no_request]; done. }
    effect_auto; done. }
  assert (forall file, effect any_session not_http (ingest_file L wd file)) as Hf.
  { intros. eapply effect_weaken; [| |apply ingest_file_ui]; [done|].
    by intros []. }
  destruct Hmode as [Hup|Hurl].
  - assert (effect any_session not_http (page L wd)) as Hp.
    { unfold page, input_section, data_preview. rewrite Hup. effect_auto; done. }
    apply Hp.
  - destruct (w_input_method wd) eqn:Hm.
    + assert (effect any_session not_http (page L wd)) as Hp.
      { unfold page, input_section, data_preview. rewrite Hm.
        effect_auto; done. }
      apply Hp.
    + assert (page L wd w
              = query_section L wd
                  (mkWorld (set_input_url (w_input_url wd) (session w)) (out w)))
        as ->.
      { unfold page, input_section, data_preview. rewrite Hm.
        destruct Hurl as [-> | ->]; reflexivity. }
      apply (Hq (mkWorld (set_input_url (w_input_url wd) (session w)) (out w))).
Qed.

Lemma page_no_request_witness :
  exists evs,
    out (page Ref.lib csv_upload w0).2 = out w0 ++ evs /\ Forall not_http evs.
Proof. apply page_no_request. by left. Defined.

(** X24.  A run of the page in which the analysis button is not clicked
    never calls the agent. *)
Theorem page_no_agent_without_click L wd w :
  w_analyze_button wd = false ->
  exists evs, out (page L wd w).2 = out w ++ evs /\ Forall not_agent_call evs.
Proof.
  intros Hb.
  assert (effect any_session not_agent_call (page L wd)) as Hp.
  { unfold page, input_section, data_preview, query_section. rewrite Hb.
    assert (forall file, effect any_session not_agent_call (ingest_file L wd file)).
    { intros. eapply effect_weaken; [| |apply ingest_file_ui]; [done|].
      by intros []. }
    assert (forall label text,
              effect any_session not_agent_call (text_preview label text)).
    { intros. eapply effect_weaken; [| |apply text_preview_ui]; [done|].
      by intros []. }
    unfold ingest_url, fetch_url_content, fetch_url_body.
    effect_auto; done. }
  apply Hp.
Qed.

Lemma page_no_agent_without_click_witness :
  exists evs,
    out (page Ref.lib csv_upload w0).2 = out w0 ++ evs
    /\ Forall not_agent_call evs.
Proof. by apply page_no_agent_without_click. Defined.

(** X25.  The upload branch has no exception handler: when the parser of
    the selected file type raises [e] on the uploaded file, the whole run
    of the page raises [e], after having shown only the preview header;
    the upload is recorded but neither content slot changes and the query
    section is not drawn. *)
Theorem upload_parse_error_aborts L wd s file e :
  w_input_method wd = UploadFile ->
  w_file_uploader wd = Some file ->
  upload_parser_raises L (w_file_type wd) file e ->
  page L wd (mkWorld s [])
  = (inl e, mkWorld (set_uploaded_file (Some file) s)
              [StSubheader (py "数据预览")]).
Proof.
  intros Hm Hfile Hraise. unfold page, input_section, data_preview.
  rewrite Hm, Hfile.
  change ((modify_session (set_uploaded_file (Some file)) ≫= ?k) (mkWorld s []))
    with (k tt (mkWorld (set_uploaded_file (Some file) s) [])).
  cbv beta. rewrite bind_run, bind_get_session. cbn [session uploaded_file set_uploaded_file].
  unfold ingest_file. rewrite bind_emit. unfold upload_parser_raises in Hraise.
  destruct (w_file_type wd);
    unfold process_word_file, process_html_file, process_pdf_file;
    first [rewrite bind_lift, Hraise | rewrite bind_run, bind_lift, Hraise];
    reflexivity.
Qed.

Lemma upload_parse_error_aborts_witness :
  page Ref.lib bad_csv_upload (mkWorld initial_session [])
  = (inl Ref.ParseError,
     mkWorld (set_uploaded_file (Some Ref.word_file) initial_session)
       [StSubheader (py "数据预览")]).
Proof.
  by apply (upload_parse_error_aborts Ref.lib bad_csv_upload initial_session
              Ref.word_file Ref.ParseError).
Defined.

(** X26.  For an Excel upload: a workbook without sheets makes the section
    raise after the header; a workbook with a single sheet is read from
    that sheet with no select box; a workbook with several sheets shows
    the select box over the sheet names and reads the selected sheet.  In
    both successful cases the frame read is stored and its first 2000 rows
    are shown with the "Blues" gradient. *)
Theorem ingest_excel_sheet L wd file w :
  w_file_type wd = Excel ->
  (load_workbook_sheetnames L file = inr [] ->
   exists e, ingest_file L wd file w
             = (inl e, log w [StSubheader (py "数据预览")]))
  /\ (forall nm frame,
        load_workbook_sheetnames L file = inr [nm] ->
        pd_read_excel L file nm = inr frame ->
        ingest_file L wd file w
        = (inr tt,
           log (mkWorld (set_df frame (session w)) (out w))
             [StSubheader (py "数据预览");
              StDataframe (df_head 2000 frame) (BackgroundGradient "Blues")]))
  /\ (forall names nm frame,
        load_workbook_sheetnames L file = inr names ->
        1 < length names ->
        names !! w_sheet_name wd = Some nm ->
        pd_read_excel L file nm = inr frame ->
        ingest_file L wd file w
        = (inr tt,
           log (mkWorld (set_df frame (session w)) (out w))
             [StSubheader (py "数据预览");
              StSelectbox (py "选择工作表:") names;
              StDataframe (df_head 2000 frame) (BackgroundGradient "Blues")])).
Proof.
  intros Hft. unfold ingest_file. rewrite Hft, bind_emit. repeat split.
  - intros Hn. rewrite bind_lift, Hn. by eexists.
  - intros nm frame Hn Hr. rewrite bind_lift, Hn. cbv beta iota.
    rewrite bind_run. cbn [length bool_decide].
    rewrite bool_decide_eq_false_2 by (simpl; lia).
    cbn [py_index0]. unfold ok. rewrite lift_run. cbv beta iota.
    rewrite bind_lift, Hr, bind_modify. unfold emit, log. cbn [session out].
    by rewrite <- ?app_assoc.
  - intros names nm frame Hn Hlen Hsel Hr. rewrite bind_lift, Hn. cbv beta iota.
    rewrite bind_run. rewrite bool_decide_eq_true_2 by done.
    rewrite bind_emit, Hsel. unfold ok. rewrite lift_run. cbv beta iota.
    rewrite bind_lift, Hr, bind_modify. unfold emit, log. cbn [session out].
    by rewrite <- ?app_assoc.
Qed.

Lemma ingest_excel_sheet_witness :
  ingest_file Ref.lib excel_upload Ref.csv_file w0
  = (inr tt,
     log (mkWorld (set_df Ref.sales_frame (session w0)) (out w0))
       [StSubheader (py "数据预览");
        StDataframe (df_head 2000 Ref.sales_frame) (BackgroundGradient "Blues")]).
Proof.
  by apply (proj1 (proj2 (ingest_excel_sheet Ref.lib excel_upload Ref.csv_file
                            w0 eq_refl)) (py "Sheet1")).
Defined.

(** ** Content types and Word documents *)

(** X5.  The content-type test of [fetch_url_content] is a substring test
    on the header: a response is classified as [kind] exactly when it has
    a content-type header in which [kind] occurs somewhere (so a charset
    parameter after the type does not matter, and a missing header matches
    nothing). *)
Theorem declared_spec kind resp :
  py kind <> [] ->
  declared kind resp = true
  <-> exists ct a b,
        content_type_header resp = Some ct /\ ct = a ++ py kind ++ b.
Proof.
  intros Hk. unfold declared. destruct (content_type_header resp) as [ct|].
  - change (default empty_str (Some ct)) with ct.
    rewrite py_in_str_spec. split.
    + intros (a & b & ->). by exists (a ++ py kind ++ b), a, b.
    + intros (ct' & a & b & [= <-] & ->). by exists a, b.
  - change (default empty_str None) with (@nil N).
    rewrite py_in_str_nil by done. split; [done|].
    by intros (ct & a & b & ? & _).
Qed.

Lemma declared_spec_witness : declared "text/html" report_response = true.
Proof.
  apply (declared_spec "text/html" report_response); [discriminate|].
  by exists (py "text/html; charset=utf-8"), [], (py "; charset=utf-8").
Defined.

Lemma py_join_terminated sep parts :
  py_join sep parts ++ (if parts is [] then [] else sep)
  = concat (map (fun p => p ++ sep) parts).
Proof.
  induction parts as [|p [|q rest] IH]; [done|simpl; by rewrite app_nil_r|].
  change (py_join sep (p :: q :: rest)) with (p ++ sep ++ py_join sep (q :: rest)).
  change (concat (map (fun p => p ++ sep) (p :: q :: rest)))
    with ((p ++ sep) ++ concat (map (fun p => p ++ sep) (q :: rest))).
  rewrite <- IH. by rewrite <- !app_assoc.
Qed.

(** X8.  When the document opens, [process_word_file] returns the
    paragraph texts in order joined with newlines, with no newline after
    the last paragraph: the result followed by one newline (for a document
    that has paragraphs) is every paragraph followed by a newline.  The
    world is unchanged. *)
Theorem process_word_file_text L file w paras :
  docx_paragraphs L file = inr paras ->
  exists t,
    process_word_file L file w = (inr t, w)
    /\ t ++ (if paras is [] then [] else [10%N])
       = concat (map (fun p => p ++ [10%N]) paras).
Proof.
  intros Hp. exists (py_join [10%N] paras). split.
  - unfold process_word_file. by rewrite bind_lift, Hp.
  - apply py_join_terminated.
Qed.

Lemma process_word_file_text_witness :
  exists t,
    process_word_file Ref.lib Ref.word_file w0 = (inr t, w0)
    /\ t ++ [10%N] = py "First paragraph" ++ [10%N]
                     ++ py "Second paragraph" ++ [10%N].
Proof.
  destruct (process_word_file_text Ref.lib Ref.word_file w0
              [py "First paragraph"; py "Second paragraph"] eq_refl)
    as (t & Hrun & Ht).
  exists t. split; [exact Hrun|]. rewrite Ht. reflexivity.
Defined.

(** ** Charts in a run of the page *)




(** The click on a result that holds only a bar chart. *)
Example chart_click_reports_style :
  analyze_button_handler Ref.lib UploadFile (py "ragged chart") crash_world
  = (inr tt,
     log crash_world
       [spinner; AgentCall Ref.sales_frame (py "ragged chart");
        StExpander (py "柱状图") true;
        StError (py "分析过程中发生错误: "
                 ++ exn_str (Ref.StyleError (py "seaborn-white grid")))]).
Proof. by vm_compute. Qed.

Lemma text_preview_no_pyplot label text :
  effect eq not_pyplot (text_preview label text).
Proof. unfold text_preview. effect_auto. Qed.

Lemma handler_no_pyplot L im q e :
  style_rejected L e -> effect eq not_pyplot (analyze_button_handler L im q).
Proof.
  intros He. pose proof (fun r => display_result_no_pyplot L r e He) as Hd.
  unfold analyze_button_handler, analysis_dispatch. effect_auto; done.
Qed.

(** X13.  With the style name of line 139 refused, no run of the page
    hands a figure to [st.pyplot], whatever is uploaded, fetched, typed or
    answered by the agent. *)
Theorem page_never_draws L wd w e :
  style_rejected L e ->
  exists evs, out (page L wd w).2 = out w ++ evs /\ Forall not_pyplot evs.
Proof.
  intros He.
  assert (effect any_session not_pyplot (page L wd)) as Hp.
  { unfold page, input_section, data_preview, query_section.
    assert (effect any_session not_pyplot
              (analyze_button_handler L (w_input_method wd) (w_query wd))).
    { eapply effect_weaken; [| |by apply (handler_no_pyplot L _ _ e)]; done. }
    assert (forall label text,
              effect any_session not_pyplot (text_preview label text)).
    { intros. eapply effect_weaken; [| |apply text_preview_no_pyplot]; done. }
    unfold ingest_file, process_word_file, process_html_file, process_pdf_file.
    unfold ingest_url, fetch_url_content, fetch_url_body.
    effect_auto; done. }
  apply Hp.
Qed.

Lemma page_never_draws_witness :
  exists evs,
    out (page Ref.lib
           (mkWidgets UploadFile CSV (Some Ref.csv_file) 0 None
              (py "mean sales") true) w0).2 = out w0 ++ evs
    /\ Forall not_pyplot evs.
Proof.
  apply (page_never_draws Ref.lib _ w0 (Ref.StyleError (py "seaborn-white grid"))).
  by vm_compute.
Defined.
